(** * shop-whatsapp-service: the request gateway of [server.js]

    A shallow embedding of the parts of [server.js] that decide how a
    request is answered: the phone-number formatter, the validation
    middleware, the connection flags driven by the client's events, the
    [/qr] and [/health] probes and the [/send-whatsapp] handler.

    JavaScript strings are sequences of UTF-16 code units, JSON values are
    an inductive type, the request body is a finite map from property names
    to values, and the handler runs in a small monad that threads the system
    clock and a trace of log entries and channel calls, with exceptions. *)

From Stdlib Require Import ZArith NArith String Ascii List Lia.
From stdpp Require Import gmap strings list.

Set Warnings "-register-all".

(** ** JavaScript strings and values *)

Module Js.

(** A string is its list of UTF-16 code units; [length] is [String.length]. *)
Abbreviation jsstring := (list N).

(** An ASCII literal as a JavaScript string. *)
Fixpoint lit (s : string) : jsstring :=
  match s with
  | EmptyString => []
  | String a s' => N_of_ascii a :: lit s'
  end.

(** A literal between double quotes, as the messages of the validator
    quote the field names. *)
Definition quoted (s : string) : jsstring := [34%N] ++ lit s ++ [34%N].

(** Values of a parsed JSON document and of the objects handed to
    [res.json]. A number stands for its double; the code only tests numbers
    for being zero, so an integer is enough. Object fields keep the order in
    which the source writes them. *)
Inductive jsval :=
| JUndefined
| JNull
| JBool (b : bool)
| JNum (z : Z)
| JStr (s : jsstring)
| JArr (l : list jsval)
| JObj (fields : list (string * jsval)).

(** [!!v]: undefined, null, false, 0 and the empty string are falsy. *)
Definition truthy (v : jsval) : bool :=
  match v with
  | JUndefined | JNull => false
  | JBool b => b
  | JNum z => negb (z =? 0)%Z
  | JStr s => negb (length s =? 0)
  | JArr _ | JObj _ => true
  end.

Inductive jstype := TUndefined | TObject | TBoolean | TNumber | TString.

(** [typeof v]. *)
Definition typeof (v : jsval) : jstype :=
  match v with
  | JUndefined => TUndefined
  | JNull | JArr _ | JObj _ => TObject
  | JBool _ => TBoolean
  | JNum _ => TNumber
  | JStr _ => TString
  end.

Definition typeof_name (t : jstype) : jsstring :=
  match t with
  | TUndefined => lit "undefined"
  | TObject => lit "object"
  | TBoolean => lit "boolean"
  | TNumber => lit "number"
  | TString => lit "string"
  end.

(** Property read [o.k] on a parsed body: an absent key reads as
    [undefined]. *)
Definition prop (o : gmap string jsval) (k : string) : jsval :=
  default JUndefined (o !! k).

(** The class [\d] (without the unicode flag): the code units 0x30-0x39. *)
Definition isDigit (c : N) : bool := ((48 <=? c) && (c <=? 57))%N.

(** The class [\D]. *)
Definition nonDigit (c : N) : bool := negb (isDigit c).

(** [s.replace(/C/g, by)] for a pattern that is one character class: every
    code unit in the class is replaced by [by], the others are kept. *)
Fixpoint replace_class (cls : N -> bool) (by_ : jsstring) (s : jsstring)
  : jsstring :=
  match s with
  | [] => []
  | c :: s' => (if cls c then by_ else [c]) ++ replace_class cls by_ s'
  end.

(** WhiteSpace and LineTerminator of ECMAScript, the code units that
    [String.prototype.trim] removes. *)
Definition isWhiteSpace (c : N) : bool :=
  ((9 <=? c) && (c <=? 13) || (c =? 32) || (c =? 160) || (c =? 5760)
   || (8192 <=? c) && (c <=? 8202) || (c =? 8232) || (c =? 8233)
   || (c =? 8239) || (c =? 8287) || (c =? 12288) || (c =? 65279))%N.

Fixpoint trimStart (s : jsstring) : jsstring :=
  match s with
  | [] => []
  | c :: s' => if isWhiteSpace c then trimStart s' else s
  end.

Definition trimEnd (s : jsstring) : jsstring := rev (trimStart (rev s)).

(** [s.trim()]. *)
Definition trim (s : jsstring) : jsstring := trimEnd (trimStart s).

End Js.
Export Js.

(** ** Responses, log entries and calls to the channel *)

Inductive payload :=
| Json (fields : list (string * jsval))
| Html (markup : jsstring).

Record response := mkResponse { status : nat; body : payload }.

Inductive level := Info | Warn | Error.

(** What a handler does besides answering: entries it hands to the logger
    and calls it makes on the whatsapp-web.js client. Console output repeats
    the log entries and is left out. *)
Inductive effect :=
| Log (lvl : level) (text : string) (meta : list (string * jsval))
| GetNumberId (chatId : jsstring)
| SendMessage (chatId content : jsstring)
| NewClient (id : nat)
| ClientInitialize (id : nat).

Definition is_channel_call (e : effect) : bool :=
  match e with
  | GetNumberId _ | SendMessage _ _ => true
  | _ => false
  end.

Record request := mkRequest { req_body : gmap string jsval; req_ip : jsstring }.

(** ** formatPhoneNumber *)

Definition formatPhoneNumber (number : jsstring) : jsstring :=
  let cleanNumber := replace_class nonDigit [] number in
  let formattedNumber :=
    if length cleanNumber =? 10 then lit "91" ++ cleanNumber else cleanNumber in
  formattedNumber ++ lit "@c.us".

(** ** validateMessageInput *)

(** The middleware either answers itself or calls [next()]; behind [next()]
    both fields are strings, which [Next] carries along. *)
Inductive mw_result :=
| Respond (r : response)
| Next (number message : jsstring).

(** 'Both "number" and "message" fields are required' *)
Definition err_required : jsstring :=
  lit "Both " ++ quoted "number" ++ lit " and " ++ quoted "message"
  ++ lit " fields are required".

(** 'Both "number" and "message" must be strings' *)
Definition err_types : jsstring :=
  lit "Both " ++ quoted "number" ++ lit " and " ++ quoted "message"
  ++ lit " must be strings".

Definition err_empty : jsstring := lit "Message cannot be empty".

Definition err_too_long : jsstring := lit "Message too long (max 4096 characters)".

(** The example object of the missing-fields answer; the message ends with
    U+1F680, a surrogate pair. *)
Definition example_payload : jsval :=
  JObj [("number", JStr (lit "919876543210"));
        ("message", JStr (lit "Hello from backend " ++ [55357%N; 56960%N]))].

Definition bad_request (error : jsstring) (extra : list (string * jsval))
  : response :=
  mkResponse 400 (Json ([("success", JBool false); ("error", JStr error)] ++ extra)).

Definition validateMessageInput (req : request) : list effect * mw_result :=
  let number := prop (req_body req) "number" in
  let message := prop (req_body req) "message" in
  if negb (truthy number) || negb (truthy message) then
    ([Log Warn "Validation failed: Missing required fields"
          [("hasNumber", JBool (truthy number));
           ("hasMessage", JBool (truthy message));
           ("ip", JStr (req_ip req))]],
     Respond (bad_request err_required [("example", example_payload)]))
  else
    match number, message with
    | JStr n, JStr m =>
        if length (trim m) =? 0 then
          ([Log Warn "Validation failed: Empty message"
                [("ip", JStr (req_ip req))]],
           Respond (bad_request err_empty []))
        else if 4096 <? length m then
          ([Log Warn "Validation failed: Message too long"
                [("messageLength", JNum (Z.of_nat (length m)));
                 ("ip", JStr (req_ip req))]],
           Respond (bad_request err_too_long []))
        else ([], Next n m)
    | _, _ =>
        (* typeof number !== "string" || typeof message !== "string" *)
        ([Log Warn "Validation failed: Invalid data types"
              [("numberType", JStr (typeof_name (typeof number)));
               ("messageType", JStr (typeof_name (typeof message)));
               ("ip", JStr (req_ip req))]],
         Respond (bad_request err_types []))
    end.

(** ** The connection flags and the client's events *)

(** The reconnect callback of the [disconnected] handler is the only
    function ever handed to [setTimeout]. *)
Inductive callback := Reconnect.

Record timer := mkTimer { delay : N; action : callback }.

(** The module-level variables of [server.js]. [clientsCreated] counts the
    [new Client] calls made so far and names the instances; [timers] are the
    pending [setTimeout] calls, oldest first. *)
Record state := mkState {
  whatsappClient : option nat;
  isClientReady : bool;
  clientInitializing : bool;
  qrCodeDataUrl : option jsstring;
  clientsCreated : nat;
  timers : list timer
}.

Definition set_isClientReady (b : bool) (st : state) : state :=
  mkState (whatsappClient st) b (clientInitializing st) (qrCodeDataUrl st)
          (clientsCreated st) (timers st).

Definition set_clientInitializing (b : bool) (st : state) : state :=
  mkState (whatsappClient st) (isClientReady st) b (qrCodeDataUrl st)
          (clientsCreated st) (timers st).

Definition set_qrCodeDataUrl (u : option jsstring) (st : state) : state :=
  mkState (whatsappClient st) (isClientReady st) (clientInitializing st) u
          (clientsCreated st) (timers st).

Definition set_timers (ts : list timer) (st : state) : state :=
  mkState (whatsappClient st) (isClientReady st) (clientInitializing st)
          (qrCodeDataUrl st) (clientsCreated st) ts.

(** The state when the module has been loaded. *)
Definition initial_state : state := mkState None false false None 0 [].

(** A thrown or reported [Error]: [Err.message e] is [e.message]. *)
Module Err.
Record js_error := mkError { message : jsstring; stack : jsstring }.
End Err.
Abbreviation js_error := Err.js_error.
Abbreviation mkError := Err.mkError.

Definition initializeWhatsApp (st : state) : state * list effect :=
  if clientInitializing st then
    (st, [Log Warn "WhatsApp client initialization already in progress" []])
  else
    let id := clientsCreated st in
    (mkState (Some id) (isClientReady st) true (qrCodeDataUrl st) (S id)
             (timers st),
     [Log Info "🚀 Initializing WhatsApp client..." [];
      NewClient id;
      ClientInitialize id]).

(** What the event loop delivers. [Qr] carries the outcome of
    [qrcode.toDataURL]; [InitializeRejected] is the rejection of the promise
    of [whatsappClient.initialize()]; [Timeout] fires the oldest pending
    timer. Every client instance is given the same handlers, which act on
    the shared variables, so an event does not say which instance emitted
    it. *)
Inductive event :=
| Qr (qr : jsstring) (dataUrl : js_error + jsstring)
| Authenticated
| AuthFailure (msg : jsstring)
| Ready
| Disconnected (reason : jsstring)
| ClientError (error : js_error)
| MessageCreate (fromMe : bool) (to id type : jsstring)
| InitializeRejected (error : js_error)
| Timeout.

Definition run_callback (cb : callback) (st : state) : state * list effect :=
  match cb with
  | Reconnect =>
      let (st', eff) := initializeWhatsApp st in
      (st', Log Info "🔄 Attempting to reconnect WhatsApp client" [] :: eff)
  end.

Definition handle (ev : event) (st : state) : state * list effect :=
  match ev with
  | Qr qr res =>
      match res with
      | inl err =>
          (st, [Log Info "📱 QR Code generated for WhatsApp login" [];
                Log Error "Failed to generate QR code data URL"
                    [("error", JStr (Err.message err))]])
      | inr url =>
          (set_qrCodeDataUrl (Some url) st,
           [Log Info "📱 QR Code generated for WhatsApp login" [];
            Log Info "QR Code available at /qr endpoint" []])
      end
  | Authenticated =>
      (st, [Log Info "✅ WhatsApp authenticated successfully" []])
  | AuthFailure msg =>
      (set_clientInitializing false (set_isClientReady false st),
       [Log Error "❌ WhatsApp authentication failed" [("error", JStr msg)]])
  | Ready =>
      (set_clientInitializing false (set_isClientReady true st),
       [Log Info "🎉 WhatsApp client is ready" []])
  | Disconnected reason =>
      (set_timers (timers st ++ [mkTimer 5000 Reconnect])
         (set_clientInitializing false (set_isClientReady false st)),
       [Log Warn "📴 WhatsApp client disconnected" [("reason", JStr reason)]])
  | ClientError error =>
      (set_clientInitializing false st,
       [Log Error "💥 WhatsApp client error"
            [("error", JStr (Err.message error)); ("stack", JStr (Err.stack error))]])
  | MessageCreate fromMe to id type =>
      (st,
       if fromMe then
         [Log Info "📤 Message sent"
              [("to", JStr to); ("messageId", JStr id); ("type", JStr type)]]
       else [])
  | InitializeRejected error =>
      (set_clientInitializing false st,
       [Log Error "Failed to initialize WhatsApp client"
            [("error", JStr (Err.message error))]])
  | Timeout =>
      match timers st with
      | [] => (st, [])
      | t :: ts => run_callback (action t) (set_timers ts st)
      end
  end.

(** A run of the event loop: the events in order, the effects
    concatenated. *)
Fixpoint run (evs : list event) (st : state) : state * list effect :=
  match evs with
  | [] => (st, [])
  | ev :: evs' =>
      let (st1, eff1) := handle ev st in
      let (st2, eff2) := run evs' st1 in
      (st2, eff1 ++ eff2)
  end.

(** ** The probes *)

(** [<img src="URL" alt="Scan this QR code with WhatsApp">] *)
Definition qr_markup (url : jsstring) : jsstring :=
  lit "<img src=" ++ [34%N] ++ url ++ [34%N] ++ lit " alt="
  ++ quoted "Scan this QR code with WhatsApp" ++ lit ">".

Definition qr_unavailable : jsstring :=
  lit "QR code not available at the moment. It may have been scanned already or is not yet generated.".

(** GET /qr. A data URL is never the empty string, the one falsy string. *)
Definition get_qr (st : state) : response :=
  match qrCodeDataUrl st with
  | Some url =>
      if truthy (JStr url) then mkResponse 200 (Html (qr_markup url))
      else mkResponse 404 (Json [("success", JBool false);
                                 ("error", JStr qr_unavailable)])
  | None =>
      mkResponse 404 (Json [("success", JBool false);
                            ("error", JStr qr_unavailable)])
  end.

(** The [checks] object of the health report. *)
Record checks := mkChecks { server : jsstring; whatsapp : jsstring; memory : jsstring }.

Definition health_checks (st : state) (heapUsed : Z) : checks :=
  mkChecks (lit "ok")
           (if isClientReady st then lit "ok" else lit "disconnected")
           (if (heapUsed <? 500 * 1024 * 1024)%Z then lit "ok" else lit "warning").

(** [health.checks.server === "ok" ? 200 : 503] *)
Definition health_statusCode (c : checks) : nat :=
  if decide (server c = lit "ok") then 200 else 503.

(** GET /health. *)
Definition get_health (st : state) (heapUsed : Z) (timestamp : jsstring)
  : response :=
  let c := health_checks st heapUsed in
  mkResponse (health_statusCode c)
    (Json [("status", JStr (lit "healthy"));
           ("checks", JObj [("server", JStr (server c));
                            ("whatsapp", JStr (whatsapp c));
                            ("memory", JStr (memory c))]);
           ("timestamp", JStr timestamp)]).

(** ** The handler monad *)

(** What the handler of one request sees of the outside: the environment
    mode, the successive readings of the system clock, the rendering of a
    date, and the answers of the whatsapp-web.js client. [getNumberId]
    resolves to [null] or to an id object, [sendMessage] to the serialized
    id of the message sent; either may throw. *)
Record world := mkWorld {
  NODE_ENV : option jsstring;
  clock : nat -> Z;
  toISOString : Z -> jsstring;
  getNumberId : jsstring -> js_error + jsval;
  sendMessage : jsstring -> jsstring -> js_error + jsstring
}.

(** The number of clock readings taken and the effects so far. *)
Record hstate := mkH { ticks : nat; trace : list effect }.

Definition M (A : Type) : Type := world -> hstate -> (js_error + A) * hstate.

Definition ret {A} (a : A) : M A := fun _ h => (inr a, h).

Definition bind {A B} (m : M A) (k : A -> M B) : M B :=
  fun w h =>
    match m w h with
    | (inl e, h') => (inl e, h')
    | (inr a, h') => k a w h'
    end.

Notation "'let!' x ':=' m 'in' k" := (bind m (fun x => k))
  (at level 10, x name, m at level 100, k at level 200).
Notation "'do!' m 'in' k" := (bind m (fun _ => k))
  (at level 10, m at level 100, k at level 200).

Definition throw {A} (e : js_error) : M A := fun _ h => (inl e, h).

(** [try { m } catch (error) { k error }] *)
Definition try_catch {A} (m : M A) (k : js_error -> M A) : M A :=
  fun w h =>
    match m w h with
    | (inl e, h') => k e w h'
    | (inr a, h') => (inr a, h')
    end.

Definition emit (e : effect) : M unit :=
  fun _ h => (inr tt, mkH (ticks h) (trace h ++ [e])).

Definition emit_all (es : list effect) : M unit :=
  fun _ h => (inr tt, mkH (ticks h) (trace h ++ es)).

(** [Date.now()] *)
Definition date_now : M Z :=
  fun w h => (inr (clock w (ticks h)), mkH (S (ticks h)) (trace h)).

(** [new Date().toISOString()] *)
Definition iso_now : M jsstring :=
  fun w h => (inr (toISOString w (clock w (ticks h))), mkH (S (ticks h)) (trace h)).

Definition env_mode : M (option jsstring) := fun w h => (inr (NODE_ENV w), h).

(** [await client.getNumberId(chatId)]; a call on the [null] client throws a
    TypeError before anything reaches the channel. *)
Definition null_client_error : js_error :=
  mkError (lit "Cannot read properties of null") (lit "TypeError").

Definition await_getNumberId (client : option nat) (chatId : jsstring) : M jsval :=
  match client with
  | None => throw null_client_error
  | Some _ =>
      fun w h =>
        let h' := mkH (ticks h) (trace h ++ [GetNumberId chatId]) in
        match getNumberId w chatId with
        | inl e => (inl e, h')
        | inr v => (inr v, h')
        end
  end.

(** [await client.sendMessage(chatId, content)], read as
    [sentMessage.id._serialized]. *)
Definition await_sendMessage (client : option nat) (chatId content : jsstring)
  : M jsstring :=
  match client with
  | None => throw null_client_error
  | Some _ =>
      fun w h =>
        let h' := mkH (ticks h) (trace h ++ [SendMessage chatId content]) in
        match sendMessage w chatId content with
        | inl e => (inl e, h')
        | inr v => (inr v, h')
        end
  end.

(** ** POST /send-whatsapp *)

Definition err_not_ready : jsstring :=
  lit "WhatsApp client is not ready. Please wait for connection or scan QR code.".

Definition err_not_registered : jsstring :=
  lit "Phone number is not registered on WhatsApp".

(** The route handler behind the validator, for the [number] and [message]
    the validator let through. The state is the one at the time the request
    arrives. *)
Definition send_handler (st : state) (ip number message : jsstring) : M response :=
  let! startTime := date_now in
  try_catch
    (if negb (isClientReady st) then
       do! emit (Log Warn "Message send failed: Client not ready"
               [("ip", JStr ip);
                ("clientInitializing", JBool (clientInitializing st))]) in
       ret (mkResponse 503
              (Json [("success", JBool false);
                     ("error", JStr err_not_ready);
                     ("whatsappConnected", JBool false);
                     ("clientInitializing", JBool (clientInitializing st))]))
     else
       let chatId := formatPhoneNumber number in
       do! emit (Log Info "📤 Attempting to send message"
               [("to", JStr number); ("chatId", JStr chatId);
                ("messageLength", JNum (Z.of_nat (length message)));
                ("ip", JStr ip)]) in
       let! numberId := await_getNumberId (whatsappClient st) chatId in
       if negb (truthy numberId) then
         do! emit (Log Warn "Message send failed: Number not registered"
                 [("number", JStr number); ("chatId", JStr chatId);
                  ("ip", JStr ip)]) in
         ret (mkResponse 404
                (Json [("success", JBool false);
                       ("error", JStr err_not_registered);
                       ("number", JStr number)]))
       else
         let! messageId := await_sendMessage (whatsappClient st) chatId message in
         let! now := date_now in
         let responseTime := (now - startTime)%Z in
         do! emit (Log Info "✅ Message sent successfully"
                 [("to", JStr number); ("chatId", JStr chatId);
                  ("messageId", JStr messageId);
                  ("responseTime", JNum responseTime);
                  ("ip", JStr ip)]) in
         let! timestamp := iso_now in
         ret (mkResponse 200
                (Json [("success", JBool true);
                       ("message", JStr (lit "Message sent successfully"));
                       ("data", JObj [("to", JStr number);
                                      ("chatId", JStr chatId);
                                      ("messageId", JStr messageId);
                                      ("responseTime", JNum responseTime);
                                      ("timestamp", JStr timestamp)])])))
    (fun error =>
       let! now := date_now in
       let responseTime := (now - startTime)%Z in
       do! emit (Log Error "❌ Error sending message"
               [("error", JStr (Err.message error));
                ("stack", JStr (Err.stack error));
                ("to", JStr number);
                ("responseTime", JNum responseTime);
                ("ip", JStr ip)]) in
       let! mode := env_mode in
       let! timestamp := iso_now in
       ret (mkResponse 500
              (Json [("success", JBool false);
                     ("error", JStr (lit "Failed to send message"));
                     ("details",
                      JStr (if decide (mode = Some (lit "development"))
                            then Err.message error
                            else lit "Internal server error"));
                     ("responseTime", JNum responseTime);
                     ("timestamp", JStr timestamp)]))).

(** The route: the validator, then the handler if it called [next()]. *)
Definition post_send_whatsapp (st : state) (req : request) : M response :=
  match validateMessageInput req with
  | (logs, Respond r) => do! emit_all logs in ret r
  | (logs, Next number message) =>
      do! emit_all logs in send_handler st (req_ip req) number message
  end.

(** Running a handler on a fresh request. *)
Definition serve {A} (m : M A) (w : world) : (js_error + A) * list effect :=
  let (r, h) := m w (mkH 0 []) in (r, trace h).

(** Field [k] of a JSON answer. *)
Fixpoint field (k : string) (fields : list (string * jsval)) : jsval :=
  match fields with
  | [] => JUndefined
  | (k', v) :: rest => if String.eqb k k' then v else field k rest
  end.

Definition json_field (k : string) (r : response) : jsval :=
  match body r with
  | Json fields => field k fields
  | Html _ => JUndefined
  end.

(** ** The rules of the validator *)

(** The four checks of [validateMessageInput], in the order of the source. *)
Inductive rule := MissingFields | NotStrings | EmptyMessage | TooLong.

Definition rule_index (r : rule) : nat :=
  match r with
  | MissingFields => 0
  | NotStrings => 1
  | EmptyMessage => 2
  | TooLong => 3
  end.

(** The answer the validator gives when it stops at a rule. *)
Definition rule_answer (r : rule) : response :=
  match r with
  | MissingFields => bad_request err_required [("example", example_payload)]
  | NotStrings => bad_request err_types []
  | EmptyMessage => bad_request err_empty []
  | TooLong => bad_request err_too_long []
  end.

(** The values that [!v] takes for missing. *)
Definition falsy (v : jsval) : Prop :=
  v = JUndefined \/ v = JNull \/ v = JBool false \/ v = JNum 0 \/ v = JStr [].

(** Key [k] is not in the body, or holds a falsy value. *)
Definition absent_or_falsy (b : gmap string jsval) (k : string) : Prop :=
  b !! k = None \/ exists v, b !! k = Some v /\ falsy v.

(** When a body breaks a rule. *)
Definition violates (r : rule) (b : gmap string jsval) : Prop :=
  match r with
  | MissingFields => absent_or_falsy b "number" \/ absent_or_falsy b "message"
  | NotStrings =>
      typeof (prop b "number") <> TString \/ typeof (prop b "message") <> TString
  | EmptyMessage => exists m, b !! "message" = Some (JStr m) /\ trim m = []
  | TooLong => exists m, b !! "message" = Some (JStr m) /\ 4096 < length m
  end.

Definition is_string (v : jsval) : bool :=
  match v with JStr _ => true | _ => false end.

(** [violates] as a test. *)
Definition violatesb (r : rule) (b : gmap string jsval) : bool :=
  match r with
  | MissingFields =>
      negb (truthy (prop b "number")) || negb (truthy (prop b "message"))
  | NotStrings =>
      negb (is_string (prop b "number")) || negb (is_string (prop b "message"))
  | EmptyMessage =>
      match prop b "message" with
      | JStr m => length (trim m) =? 0
      | _ => false
      end
  | TooLong =>
      match prop b "message" with
      | JStr m => 4096 <? length m
      | _ => false
      end
  end.

Definition first_violation (b : gmap string jsval) : option rule :=
  if violatesb MissingFields b then Some MissingFields
  else if violatesb NotStrings b then Some NotStrings
  else if violatesb EmptyMessage b then Some EmptyMessage
  else if violatesb TooLong b then Some TooLong
  else None.

(** The rejection condition read word for word: a field is missing when the
    body has no such key. *)
Definition stated_violation (b : gmap string jsval) : Prop :=
  b !! "number" = None \/ b !! "message" = None
  \/ typeof (prop b "number") <> TString
  \/ typeof (prop b "message") <> TString
  \/ (exists m, b !! "message" = Some (JStr m) /\ trim m = [])
  \/ (exists m, b !! "message" = Some (JStr m) /\ 4096 < length m).

(** The validator answers the request itself. *)
Definition rejects (req : request) : Prop :=
  exists resp, snd (validateMessageInput req) = Respond resp.

(** ** Sample requests and worlds *)

Definition sample_ip : jsstring := lit "203.0.113.7".

Definition body_of (number message : jsval) : gmap string jsval :=
  {[ "number" := number; "message" := message ]}.

Definition sample_request (number message : jsstring) : request :=
  mkRequest (body_of (JStr number) (JStr message)) sample_ip.

(** ** Vocabulary of the connection properties *)

(** The events whose handlers assign [clientInitializing = false]. *)
Definition clears_guard (ev : event) : bool :=
  match ev with
  | AuthFailure _ | Ready | Disconnected _ | ClientError _
  | InitializeRejected _ => true
  | Qr _ _ | Authenticated | MessageCreate _ _ _ _ | Timeout => false
  end.

(** A [new Client] or a [client.initialize()]. *)
Definition starts_client (e : effect) : bool :=
  match e with
  | NewClient _ | ClientInitialize _ => true
  | _ => false
  end.


(** The server right after start-up, and once the client has reported
    ready. *)
Definition connecting_state : state := fst (initializeWhatsApp initial_state).

Definition ready_state : state := fst (handle Ready connecting_state).

Definition sample_error : js_error :=
  mkError (lit "Evaluation failed: t") (lit "Error: Evaluation failed: t at ExecutionContext").

Definition sample_world (mode : option jsstring) (exists_ : js_error + jsval)
  (sent : js_error + jsstring) : world :=
  mkWorld mode (fun k => 1700000000000 + 40 * Z.of_nat k)%Z
          (fun _ => lit "2024-01-01T12:00:00.000Z")
          (fun _ => exists_) (fun _ _ => sent).

Definition sample_url : jsstring := lit "data:image/png;base64,iVBORw0KGgo=".

(** ** The remaining routes, the shutdown hook and the test client *)

(** [v || d] on an environment variable: unset and empty both give [d]. *)
Definition or_default (v : option jsstring) (d : jsstring) : jsstring :=
  match v with
  | Some s => if truthy (JStr s) then s else d
  | None => d
  end.

(** The [status] text of GET /. *)
Definition connection_status (st : state) : jsstring :=
  if isClientReady st then lit "Connected"
  else if clientInitializing st then lit "Connecting"
  else lit "Disconnected".

(** GET /. [uptime] is what [process.uptime()] returns. *)
Definition get_root (st : state) (ip : jsstring) (env : option jsstring)
  (uptime : jsval) (timestamp : jsstring) : list effect * response :=
  ([Log Info "Service info requested" [("ip", JStr ip)]],
   mkResponse 200
     (Json [("service", JStr (lit "WhatsApp Backend Service"));
            ("version", JStr (lit "1.0.0"));
            ("status", JStr (connection_status st));
            ("environment", JStr (or_default env (lit "development")));
            ("uptime", uptime);
            ("timestamp", JStr timestamp);
            ("endpoints", JObj [("send", JStr (lit "POST /send-whatsapp"));
                                ("status", JStr (lit "GET /status"));
                                ("health", JStr (lit "GET /health"))])])).

(** GET /status. [memory] is what [process.memoryUsage()] returns. *)
Definition get_status (st : state) (ip : jsstring) (uptime memory : jsval)
  (timestamp : jsstring) : list effect * response :=
  ([Log Info "Status check requested"
        [("ip", JStr ip); ("whatsappConnected", JBool (isClientReady st))]],
   mkResponse 200
     (Json [("success", JBool true);
            ("whatsappConnected", JBool (isClientReady st));
            ("clientInitializing", JBool (clientInitializing st));
            ("uptime", uptime);
            ("memory", memory);
            ("timestamp", JStr timestamp)])).

(** What the process-level hooks do: log, destroy a client, exit. *)
Inductive proc_effect :=
| Logged (e : effect)
| Destroy (id : nat)
| Exit (code : nat).

Definition is_destroy (e : proc_effect) : bool :=
  match e with Destroy _ => true | _ => false end.

(** [gracefulShutdown(signal)]. [destroy id] is the outcome of
    [whatsappClient.destroy()] on instance [id]: [None] when it resolves,
    the error when it rejects. *)
Definition gracefulShutdown (signal : string) (st : state)
  (destroy : nat -> option js_error) : list proc_effect :=
  [Logged (Log Info ("🛑 " +:+ signal +:+ " received, shutting down gracefully...") [])]
  ++ match whatsappClient st with
     | Some id =>
         Destroy id ::
         match destroy id with
         | None => [Logged (Log Info "WhatsApp client destroyed successfully" [])]
         | Some error =>
             [Logged (Log Error "Error destroying WhatsApp client"
                        [("error", JStr (Err.message error))])]
         end
     | None => []
     end
  ++ [Exit 0].

(** The test client of [test-sender.js]. A fetch gives a response, or fails
    ([None]); reading a body that is not JSON throws; every failure is
    caught and counts as [false]. *)
Definition response_ok (r : response) : bool :=
  (200 <=? status r) && (status r <=? 299).

Definition checkServerStatus (fetched : option response) : bool :=
  match fetched with
  | Some r =>
      match body r with
      | Json data =>
          truthy (field "success" data) && truthy (field "whatsappConnected" data)
      | Html _ => false
      end
  | None => false
  end.

(** [sendTestMessage(phoneNumber, message)] against a server: the body that
    [JSON.stringify({number, message})] puts on the wire and the server
    parses back drops a property whose value is [undefined]. *)
Definition test_body (number message : option jsstring) : gmap string jsval :=
  let with_number :=
    match number with
    | Some n => <[ "number" := JStr n ]> (∅ : gmap string jsval)
    | None => ∅
    end in
  match message with
  | Some m => <[ "message" := JStr m ]> with_number
  | None => with_number
  end.

Definition sendTestMessage (fetch : request -> option response) (ip : jsstring)
  (phoneNumber message : option jsstring) : bool :=
  match fetch (mkRequest (test_body phoneNumber message) ip) with
  | Some r =>
      match body r with
      | Json data => response_ok r && truthy (field "success" data)
      | Html _ => false
      end
  | None => false
  end.

(** This server as seen by a client: the answer of the route, if any. *)
Definition fetch_send (st : state) (w : world) (req : request) : option response :=
  match fst (serve (post_send_whatsapp st req) w) with
  | inr r => Some r
  | inl _ => None
  end.

(** ** Vocabulary of the added properties *)

(** The data URL of the last QR code that was rendered, [cur] if none
    was. *)
Fixpoint last_qr (evs : list event) (cur : option jsstring) : option jsstring :=
  match evs with
  | [] => cur
  | Qr _ (inr url) :: evs' => last_qr evs' (Some url)
  | _ :: evs' => last_qr evs' cur
  end.

Definition is_ready_event (ev : event) : bool :=
  match ev with Ready => true | _ => false end.

(** The events whose handlers assign [isClientReady = false]. *)
Definition drops_ready (ev : event) : bool :=
  match ev with AuthFailure _ | Disconnected _ => true | _ => false end.

(** [n] rounds of a disconnect followed by the expiry of a timer. *)
Fixpoint reconnect_rounds (reason : jsstring) (n : nat) : list event :=
  match n with
  | 0 => []
  | S n' => Disconnected reason :: Timeout :: reconnect_rounds reason n'
  end.

(** The current client is the one created last. *)
Definition client_is_latest (st : state) : Prop :=
  exists id, whatsappClient st = Some id /\ clientsCreated st = S id.

(** The channel calls of a trace. *)
Definition channel_calls (tr : list effect) : list effect :=
  List.filter is_channel_call tr.

(** The six ways through the handler: for each, the status, the [success]
    field and the channel calls made. *)
Inductive handler_path (st : state) (w : world) (n m : jsstring)
  : nat -> bool -> list effect -> Prop :=
| path_not_ready :
    isClientReady st = false ->
    handler_path st w n m 503 false []
| path_no_client :
    isClientReady st = true -> whatsappClient st = None ->
    handler_path st w n m 500 false []
| path_check_throws c e :
    isClientReady st = true -> whatsappClient st = Some c ->
    getNumberId w (formatPhoneNumber n) = inl e ->
    handler_path st w n m 500 false [GetNumberId (formatPhoneNumber n)]
| path_unknown c numberId :
    isClientReady st = true -> whatsappClient st = Some c ->
    getNumberId w (formatPhoneNumber n) = inr numberId ->
    truthy numberId = false ->
    handler_path st w n m 404 false [GetNumberId (formatPhoneNumber n)]
| path_send_throws c numberId e :
    isClientReady st = true -> whatsappClient st = Some c ->
    getNumberId w (formatPhoneNumber n) = inr numberId ->
    truthy numberId = true ->
    sendMessage w (formatPhoneNumber n) m = inl e ->
    handler_path st w n m 500 false
      [GetNumberId (formatPhoneNumber n); SendMessage (formatPhoneNumber n) m]
| path_sent c numberId messageId :
    isClientReady st = true -> whatsappClient st = Some c ->
    getNumberId w (formatPhoneNumber n) = inr numberId ->
    truthy numberId = true ->
    sendMessage w (formatPhoneNumber n) m = inr messageId ->
    handler_path st w n m 200 true
      [GetNumberId (formatPhoneNumber n); SendMessage (formatPhoneNumber n) m].

(** The one event whose handler schedules a timer. *)
Definition is_disconnect (ev : event) : bool :=
  match ev with Disconnected _ => true | _ => false end.

(** * Properties *)

(** ** Strings *)

Section Strings.

Implicit Types (s : jsstring) (c : N).

Lemma replace_class_delete cls s :
  replace_class cls [] s = List.filter (fun c => negb (cls c)) s.
Proof.
  induction s as [|c s IH]; simpl; [reflexivity|].
  destruct (cls c); simpl; rewrite IH; reflexivity.
Qed.

Lemma replace_nonDigit s :
  replace_class nonDigit [] s = List.filter isDigit s.
Proof.
  rewrite replace_class_delete. induction s as [|c s IH]; simpl; [reflexivity|].
  unfold nonDigit at 1. rewrite negb_involutive, IH. reflexivity.
Qed.

Lemma filter_no_digit s :
  Forall (fun c => isDigit c = false) s -> List.filter isDigit s = [].
Proof.
  induction 1 as [|c s Hc _ IH]; simpl; [reflexivity|].
  rewrite Hc. exact IH.
Qed.

Lemma trimStart_nil_iff s :
  trimStart s = [] <-> forallb isWhiteSpace s = true.
Proof.
  induction s as [|c s IH]; simpl; [tauto|].
  destruct (isWhiteSpace c); simpl; [exact IH|].
  split; discriminate.
Qed.

(** What [trimStart] returns is a suffix of its argument. *)
Lemma trimStart_suffix s : exists pre, s = pre ++ trimStart s
  /\ forallb isWhiteSpace pre = true.
Proof.
  induction s as [|c s [pre [IH Hpre]]]; simpl.
  - exists []. split; reflexivity.
  - destruct (isWhiteSpace c) eqn:Hc.
    + exists (c :: pre). simpl. rewrite Hc, Hpre. split; [f_equal; exact IH | reflexivity].
    + exists []. split; reflexivity.
Qed.

(** [message.trim().length === 0] holds exactly of the strings made of
    white space only. *)
Lemma trim_nil_iff s : trim s = [] <-> forallb isWhiteSpace s = true.
Proof.
  unfold trim, trimEnd. split.
  - intros H. apply (f_equal (@rev N)) in H. rewrite rev_involutive in H.
    simpl in H. apply trimStart_nil_iff in H.
    rewrite forallb_forall in H.
    destruct (trimStart_suffix s) as [pre [Hs Hpre]].
    rewrite forallb_forall in Hpre. rewrite forallb_forall.
    intros c Hin. rewrite Hs in Hin. apply in_app_or in Hin as [Hin|Hin].
    + apply Hpre, Hin.
    + apply H. rewrite <- in_rev. exact Hin.
  - intros H. apply trimStart_nil_iff in H. rewrite H. reflexivity.
Qed.

Lemma trim_length_zero s :
  (length (trim s) =? 0) = true <-> forallb isWhiteSpace s = true.
Proof.
  rewrite Nat.eqb_eq, <- trim_nil_iff. destruct (trim s); simpl; split; congruence.
Qed.

End Strings.

(** ** The phone-number formatter *)

(** C2. For every input string, [formatPhoneNumber] first deletes every code
    unit that is not a decimal digit, keeping the digits in their order; if
    exactly ten digits remain the result is "91", the digits, "@c.us", and
    for any other count it is the digits followed by "@c.us", with no prefix.
    The function is a total function of its argument alone. *)
Theorem formatPhoneNumber_digits (raw : jsstring) :
  let digits := List.filter isDigit raw in
  replace_class nonDigit [] raw = digits
  /\ Forall (fun c => isDigit c = true) digits
  /\ (length digits = 10 ->
      formatPhoneNumber raw = lit "91" ++ digits ++ lit "@c.us")
  /\ (length digits <> 10 ->
      formatPhoneNumber raw = digits ++ lit "@c.us").
Proof.
  intros digits. split; [apply replace_nonDigit|]. split.
  - apply List.Forall_forall. intros c Hc.
    apply List.filter_In in Hc. tauto.
  - unfold formatPhoneNumber. rewrite replace_nonDigit. fold digits.
    split; intros H.
    + rewrite H. simpl. reflexivity.
    + apply Nat.eqb_neq in H. rewrite H. reflexivity.
Qed.

Lemma formatPhoneNumber_digits_witness :
  formatPhoneNumber (lit "+98765 43210") = lit "919876543210@c.us"
  /\ formatPhoneNumber (lit "(0)12-345") = lit "012345@c.us".
Proof.
  split.
  - apply (proj1 (proj2 (proj2 (formatPhoneNumber_digits (lit "+98765 43210"))))).
    reflexivity.
  - apply (proj2 (proj2 (proj2 (formatPhoneNumber_digits (lit "(0)12-345"))))).
    simpl. lia.
Defined.

(** ** The validator *)

Section Validator.

Implicit Types (b : gmap string jsval) (v : jsval) (req : request) (r : rule).

Lemma truthy_false_iff v : truthy v = false <-> falsy v.
Proof.
  unfold falsy. destruct v as [| |[|]|z|s| |]; simpl; split;
    try discriminate; try tauto;
    try (intros H; decompose [or] H; discriminate).
  - destruct (Z.eqb_spec z 0); simpl; [subst; tauto | discriminate].
  - intros H. decompose [or] H; try discriminate.
    match goal with E : JNum _ = JNum _ |- _ => injection E as -> end.
    reflexivity.
  - destruct s; simpl; [tauto | discriminate].
  - intros H. decompose [or] H; try discriminate.
    match goal with E : JStr _ = JStr _ |- _ => injection E as -> end.
    reflexivity.
Qed.

Lemma absent_or_falsy_iff b k :
  absent_or_falsy b k <-> truthy (prop b k) = false.
Proof.
  unfold absent_or_falsy, prop. rewrite truthy_false_iff.
  destruct (b !! k) as [v|]; simpl.
  - split.
    + intros [H|[v' [H Hv]]]; [discriminate | congruence].
    + intros H. right. exists v. split; [reflexivity | exact H].
  - split; [intros _; left; reflexivity | intros _; left; reflexivity].
Qed.

Lemma prop_string_iff b k s : prop b k = JStr s <-> b !! k = Some (JStr s).
Proof.
  unfold prop. destruct (b !! k) as [v|]; simpl; split; congruence.
Qed.

Lemma is_string_typeof v : is_string v = true <-> typeof v = TString.
Proof. destruct v; simpl; split; congruence. Qed.

(** The test decides the rule. *)
Lemma violatesb_spec r b : violatesb r b = true <-> violates r b.
Proof.
  destruct r; simpl.
  - rewrite orb_true_iff, !negb_true_iff, !absent_or_falsy_iff. reflexivity.
  - rewrite orb_true_iff, !negb_true_iff.
    rewrite <- !not_true_iff_false, !is_string_typeof. reflexivity.
  - destruct (prop b "message") as [| | | |m| |] eqn:E;
      try (split; [discriminate | intros [m' [H _]]; apply prop_string_iff in H; congruence]).
    rewrite trim_length_zero, <- trim_nil_iff. split.
    + intros H. exists m. split; [apply prop_string_iff, E | exact H].
    + intros [m' [H Hm]]. apply prop_string_iff in H. congruence.
  - destruct (prop b "message") as [| | | |m| |] eqn:E;
      try (split; [discriminate | intros [m' [H _]]; apply prop_string_iff in H; congruence]).
    rewrite Nat.ltb_lt. split.
    + intros H. exists m. split; [apply prop_string_iff, E | exact H].
    + intros [m' [H Hm]]. apply prop_string_iff in H. congruence.
Qed.

Lemma violatesb_false r b : violatesb r b = false <-> ~ violates r b.
Proof. rewrite <- violatesb_spec. destruct (violatesb r b); split; congruence. Qed.

(** The validator stops at the first rule that the body breaks. *)
Lemma validate_first_violation req r :
  first_violation (req_body req) = Some r ->
  snd (validateMessageInput req) = Respond (rule_answer r).
Proof.
  unfold first_violation, validateMessageInput, violatesb.
  destruct (negb (truthy (prop (req_body req) "number"))
            || negb (truthy (prop (req_body req) "message"))) eqn:E1.
  { intros [= <-]. reflexivity. }
  destruct (prop (req_body req) "number") as [| | | |n| |];
    destruct (prop (req_body req) "message") as [| | | |m| |]; simpl;
    try (intros [= <-]; reflexivity).
  destruct (length (trim m) =? 0); [intros [= <-]; reflexivity|].
  destruct (4096 <? length m); [intros [= <-]; reflexivity | discriminate].
Qed.

Lemma validate_no_violation req :
  first_violation (req_body req) = None ->
  exists n m, prop (req_body req) "number" = JStr n
    /\ prop (req_body req) "message" = JStr m
    /\ validateMessageInput req = ([], Next n m).
Proof.
  unfold first_violation, validateMessageInput, violatesb.
  destruct (negb (truthy (prop (req_body req) "number"))
            || negb (truthy (prop (req_body req) "message"))) eqn:E1;
    [discriminate|].
  destruct (prop (req_body req) "number") as [| | | |n| |];
    destruct (prop (req_body req) "message") as [| | | |m| |]; simpl;
    try discriminate.
  destruct (length (trim m) =? 0); [discriminate|].
  destruct (4096 <? length m); [discriminate|].
  intros _. exists n, m. auto.
Qed.

Lemma first_violation_spec b r :
  first_violation b = Some r <->
  violates r b /\ forall r', rule_index r' < rule_index r -> ~ violates r' b.
Proof.
  unfold first_violation. split.
  - destruct (violatesb MissingFields b) eqn:E0;
      [|destruct (violatesb NotStrings b) eqn:E1;
        [|destruct (violatesb EmptyMessage b) eqn:E2;
          [|destruct (violatesb TooLong b) eqn:E3]]];
      intros [= <-];
      (split; [apply violatesb_spec; assumption|]);
      intros [] Hlt; simpl in Hlt; try lia; apply violatesb_false; assumption.
  - intros [Hr Hearlier]. apply violatesb_spec in Hr.
    assert (Hf : forall r', rule_index r' < rule_index r -> violatesb r' b = false)
      by (intros r' Hlt; apply violatesb_false, Hearlier, Hlt).
    destruct r; simpl in Hf.
    + rewrite Hr. reflexivity.
    + rewrite (Hf MissingFields), Hr by (simpl; lia). reflexivity.
    + rewrite (Hf MissingFields), (Hf NotStrings), Hr by (simpl; lia). reflexivity.
    + rewrite (Hf MissingFields), (Hf NotStrings), (Hf EmptyMessage), Hr
        by (simpl; lia). reflexivity.
Qed.

Lemma first_violation_none b :
  first_violation b = None <-> forall r, ~ violates r b.
Proof.
  unfold first_violation. split.
  - destruct (violatesb MissingFields b) eqn:E0; [discriminate|].
    destruct (violatesb NotStrings b) eqn:E1; [discriminate|].
    destruct (violatesb EmptyMessage b) eqn:E2; [discriminate|].
    destruct (violatesb TooLong b) eqn:E3; [discriminate|].
    intros _ []; apply violatesb_false; assumption.
  - intros H.
    rewrite (proj2 (violatesb_false MissingFields b) (H _)),
            (proj2 (violatesb_false NotStrings b) (H _)),
            (proj2 (violatesb_false EmptyMessage b) (H _)),
            (proj2 (violatesb_false TooLong b) (H _)).
    reflexivity.
Qed.

(** The four answers differ, so an answer names its rule. *)
Lemma rule_answer_inj r r' : rule_answer r = rule_answer r' -> r = r'.
Proof. destruct r, r'; intros H; try reflexivity; vm_compute in H; discriminate. Qed.

Lemma rule_answer_status r : status (rule_answer r) = 400.
Proof. destruct r; reflexivity. Qed.

End Validator.

(** C6 (as amended). For every request body the validator answers 400
    exactly when a field is missing or falsy, a field is not a string, the
    trimmed message is empty, or the message is longer than 4096 code units;
    its answer is the one of the first rule broken, in that order; a body
    without [message] gets the missing-fields answer with the example
    payload; and a message of 4097 code units is rejected. *)
Theorem validateMessageInput_first_rule (req : request) :
  let b := req_body req in
  let res := snd (validateMessageInput req) in
  (forall r, res = Respond (rule_answer r) <->
             violates r b /\ forall r', rule_index r' < rule_index r -> ~ violates r' b)
  /\ (rejects req <-> exists r, violates r b)
  /\ (forall resp, res = Respond resp -> status resp = 400 /\ exists r, resp = rule_answer r)
  /\ (b !! "message" = None ->
      res = Respond (rule_answer MissingFields)
      /\ json_field "example" (rule_answer MissingFields) = example_payload)
  /\ (forall m, b !! "message" = Some (JStr m) -> length m = 4097 ->
      exists resp, res = Respond resp /\ status resp = 400).
Proof.
  intros b res.
  assert (Hcases : (exists r, first_violation b = Some r /\ res = Respond (rule_answer r))
                   \/ (first_violation b = None /\ exists n m, res = Next n m)).
  { destruct (first_violation b) as [r|] eqn:E.
    - left. exists r. split; [reflexivity | apply validate_first_violation, E].
    - right. split; [reflexivity|].
      destruct (validate_no_violation req E) as [n [m [_ [_ H]]]].
      exists n, m. subst res. rewrite H. reflexivity. }
  assert (Hrej : forall resp, res = Respond resp ->
                 exists r, first_violation b = Some r /\ resp = rule_answer r).
  { intros resp Hresp. destruct Hcases as [[r [E Hr]]|[_ [n [m Hn]]]].
    - exists r. split; [exact E | congruence].
    - congruence. }
  split; [|split; [|split; [|split]]].
  - intros r. split.
    + intros H. destruct (Hrej _ H) as [r0 [E Hr0]].
      apply rule_answer_inj in Hr0. subst r0.
      apply first_violation_spec, E.
    + intros H. apply first_violation_spec in H.
      apply validate_first_violation, H.
  - split.
    + intros [resp H]. destruct (Hrej _ H) as [r [E _]].
      exists r. apply first_violation_spec in E. tauto.
    + intros [r Hr]. destruct Hcases as [[r0 [_ H0]]|[E _]].
      * exists (rule_answer r0). exact H0.
      * exfalso. exact (proj1 (first_violation_none b) E r Hr).
  - intros resp H. destruct (Hrej _ H) as [r [_ ->]].
    split; [apply rule_answer_status | exists r; reflexivity].
  - intros H. split; [|reflexivity].
    apply validate_first_violation, first_violation_spec. split.
    + right. left. exact H.
    + intros r' Hlt. simpl in Hlt. lia.
  - intros m Hm Hlen.
    assert (Hv : violates TooLong b) by (exists m; split; [exact Hm | lia]).
    destruct Hcases as [[r0 [_ H0]]|[E _]].
    + exists (rule_answer r0). split; [exact H0 | apply rule_answer_status].
    + exfalso. exact (proj1 (first_violation_none b) E _ Hv).
Qed.

Lemma validateMessageInput_first_rule_witness :
  snd (validateMessageInput (mkRequest {[ "number" := JStr (lit "919876543210") ]} sample_ip))
    = Respond (rule_answer MissingFields)
  /\ exists resp,
      snd (validateMessageInput (sample_request (lit "919876543210") (repeat 97%N 4097)))
        = Respond resp /\ status resp = 400.
Proof.
  split.
  - refine (proj1 (proj1 (proj2 (proj2 (proj2 (validateMessageInput_first_rule
      (mkRequest {[ "number" := JStr (lit "919876543210") ]} sample_ip))))) _)).
    vm_compute. reflexivity.
  - apply (proj2 (proj2 (proj2 (proj2 (validateMessageInput_first_rule
      (sample_request (lit "919876543210") (repeat 97%N 4097))))))
      (repeat 97%N 4097)).
    + vm_compute. reflexivity.
    + vm_compute. reflexivity.
Defined.

(** C6 as stated fails: an empty-string [number] is present and is a string,
    and the message is fine, yet the validator rejects the request (under its
    first rule). *)
Lemma validateMessageInput_stated_counterexample :
  ~ (rejects (sample_request [] (lit "hi"))
     <-> stated_violation (req_body (sample_request [] (lit "hi")))).
Proof.
  intros [Hto _].
  assert (Hrej : rejects (sample_request [] (lit "hi")))
    by (eexists; vm_compute; reflexivity).
  specialize (Hto Hrej). unfold stated_violation in Hto.
  assert (Hn : req_body (sample_request [] (lit "hi")) !! "number" = Some (JStr []))
    by (vm_compute; reflexivity).
  assert (Hm : req_body (sample_request [] (lit "hi")) !! "message"
               = Some (JStr (lit "hi"))) by (vm_compute; reflexivity).
  unfold prop in Hto. rewrite Hn, Hm in Hto. simpl in Hto.
  destruct Hto as [H|[H|[H|[H|[[m [H Ht]]|[m [H Hl]]]]]]];
    try discriminate; try (apply H; reflexivity).
  - injection H as <-. vm_compute in Ht. discriminate.
  - injection H as <-. vm_compute in Hl. lia.
Qed.

(** ** The connection flags *)

Section Connection.

Implicit Types (st : state) (ev : event) (evs : list event).

(** C3: the code at the failing input. A QR image has been published, the
    client then reports [authenticated]: the handler leaves every variable
    as it was, and GET /qr still serves the image with status 200. *)
Theorem authenticated_keeps_qr :
  let st := fst (handle (Qr (lit "2@abc") (inr sample_url)) connecting_state) in
  fst (handle Authenticated st) = st
  /\ qrCodeDataUrl (fst (handle Authenticated st)) = Some sample_url
  /\ get_qr (fst (handle Authenticated st))
     = mkResponse 200 (Html (qr_markup sample_url)).
Proof. vm_compute. repeat split; reflexivity. Qed.

(** No event handler assigns [null] to [qrCodeDataUrl]: once set it stays
    set. *)
Lemma qrCodeDataUrl_never_cleared evs st :
  is_Some (qrCodeDataUrl st) -> is_Some (qrCodeDataUrl (fst (run evs st))).
Proof.
  revert st. induction evs as [|ev evs IH]; intros st Hq; simpl; [exact Hq|].
  destruct (handle ev st) as [st1 eff1] eqn:E1.
  specialize (IH st1).
  destruct (run evs st1) as [st2 eff2]. simpl in *. apply IH.
  destruct ev; simpl in E1;
    try (injection E1 as <- _; exact Hq).
  - destruct dataUrl; injection E1 as <- _; [exact Hq | simpl; eauto].
  - destruct (timers st) as [|t ts]; [injection E1 as <- _; exact Hq|].
    destruct t as [d []]. simpl in E1. unfold initializeWhatsApp in E1. simpl in E1.
    destruct (clientInitializing st); injection E1 as <- _; exact Hq.
Qed.

(** C4 (as amended). The [error] handler logs the error and assigns
    [clientInitializing = false]; every other variable keeps its value, so
    the state is the same afterwards exactly when the guard was already
    clear. *)
Theorem client_error_clears_guard (st : state) (error : js_error) :
  let st' := fst (handle (ClientError error) st) in
  snd (handle (ClientError error) st)
    = [Log Error "💥 WhatsApp client error"
           [("error", JStr (Err.message error)); ("stack", JStr (Err.stack error))]]
  /\ clientInitializing st' = false
  /\ isClientReady st' = isClientReady st
  /\ whatsappClient st' = whatsappClient st
  /\ qrCodeDataUrl st' = qrCodeDataUrl st
  /\ clientsCreated st' = clientsCreated st
  /\ timers st' = timers st
  /\ (st' = st <-> clientInitializing st = false).
Proof.
  simpl. repeat split; try reflexivity.
  - intros H. apply (f_equal clientInitializing) in H. simpl in H. congruence.
  - intros H. destruct st; simpl in *. subst. reflexivity.
Qed.

(** C4 as stated fails: while the client is being initialized the guard is
    set, and the [error] handler clears it. *)
Lemma client_error_changes_state :
  clientInitializing connecting_state = true
  /\ clientInitializing (fst (handle (ClientError sample_error) connecting_state)) = false
  /\ fst (handle (ClientError sample_error) connecting_state) <> connecting_state.
Proof. repeat split; try reflexivity. vm_compute. discriminate. Qed.

Lemma initialize_guarded st :
  clientInitializing st = true ->
  initializeWhatsApp st
  = (st, [Log Warn "WhatsApp client initialization already in progress" []]).
Proof. intros H. unfold initializeWhatsApp. rewrite H. reflexivity. Qed.

(** A handler that does not clear the guard leaves a set guard set, and
    creates no client while it is set. *)
Lemma handle_guard_kept ev st :
  clientInitializing st = true -> clears_guard ev = false ->
  clientInitializing (fst (handle ev st)) = true
  /\ clientsCreated (fst (handle ev st)) = clientsCreated st
  /\ whatsappClient (fst (handle ev st)) = whatsappClient st
  /\ List.filter starts_client (snd (handle ev st)) = [].
Proof.
  intros Hg Hev. destruct ev; try discriminate; simpl.
  - destruct dataUrl; simpl; auto.
  - auto.
  - destruct fromMe; auto.
  - destruct (timers st) as [|[d []] ts]; simpl; [auto|].
    rewrite initialize_guarded by exact Hg. simpl. auto.
Qed.

Lemma run_guard_kept evs : forall st,
  clientInitializing st = true ->
  Forall (fun ev => clears_guard ev = false) evs ->
  clientInitializing (fst (run evs st)) = true
  /\ clientsCreated (fst (run evs st)) = clientsCreated st
  /\ whatsappClient (fst (run evs st)) = whatsappClient st
  /\ List.filter starts_client (snd (run evs st)) = [].
Proof.
  induction evs as [|ev evs IH]; intros st Hg Hall; simpl; [auto|].
  inversion Hall as [|? ? Hev Hrest]; subst.
  destruct (handle_guard_kept ev st Hg Hev) as (Hg1 & Hc1 & Hw1 & Hf1).
  destruct (handle ev st) as [st1 eff1]. simpl in *.
  destruct (IH st1 Hg1 Hrest) as (Hg2 & Hc2 & Hw2 & Hf2).
  destruct (run evs st1) as [st2 eff2]. simpl in *.
  rewrite List.filter_app, Hf1, Hf2. repeat split; congruence.
Qed.



(** C9. GET /health answers with the status computed from the [server]
    check alone, which is 200 exactly when that check is "ok" and 503
    otherwise; the handler always sets the check to "ok", so the status is
    200 for every state, while the [whatsapp] check says "disconnected"
    whenever the client is not ready. *)
Theorem health_ok_when_disconnected (st : state) (heapUsed : Z) (timestamp : jsstring) :
  let c := health_checks st heapUsed in
  let r := get_health st heapUsed timestamp in
  status r = health_statusCode c
  /\ server c = lit "ok"
  /\ status r = 200
  /\ whatsapp c = (if isClientReady st then lit "ok" else lit "disconnected")
  /\ json_field "checks" r
     = JObj [("server", JStr (server c)); ("whatsapp", JStr (whatsapp c));
             ("memory", JStr (memory c))]
  /\ (forall c' : checks,
        (health_statusCode c' = 200 <-> server c' = lit "ok")
        /\ (health_statusCode c' = 503 <-> server c' <> lit "ok")).
Proof.
  simpl. repeat split; try reflexivity;
    unfold health_statusCode; destruct (decide (server c' = lit "ok"));
    try tauto; try congruence; try discriminate.
Qed.

End Connection.

(** ** POST /send-whatsapp *)

Section Send.

Implicit Types (st : state) (w : world) (req : request).

Ltac step_handler :=
  unfold serve, post_send_whatsapp, send_handler, bind, try_catch, ret, throw,
    emit, emit_all, date_now, iso_now, env_mode, await_getNumberId,
    await_sendMessage; simpl.

(** A request that passes the validator has logged nothing. *)
Lemma validate_next req number message :
  snd (validateMessageInput req) = Next number message ->
  validateMessageInput req = ([], Next number message).
Proof.
  intros H. destruct (first_violation (req_body req)) as [r|] eqn:E.
  - rewrite (validate_first_violation req r E) in H. discriminate.
  - destruct (validate_no_violation req E) as (n & m & _ & _ & Hv).
    rewrite Hv in H. simpl in H. congruence.
Qed.

(** C1. For a request that passes the validator while [isClientReady] is
    false, the answer is 503 with [whatsappConnected: false] and the current
    value of [clientInitializing], one warning is logged, and neither
    [getNumberId] nor [sendMessage] is called. *)
Theorem send_not_ready st req w (number message : jsstring) :
  isClientReady st = false ->
  snd (validateMessageInput req) = Next number message ->
  serve (post_send_whatsapp st req) w
  = (inr (mkResponse 503
            (Json [("success", JBool false);
                   ("error", JStr err_not_ready);
                   ("whatsappConnected", JBool false);
                   ("clientInitializing", JBool (clientInitializing st))])),
     [Log Warn "Message send failed: Client not ready"
          [("ip", JStr (req_ip req));
           ("clientInitializing", JBool (clientInitializing st))]])
  /\ List.filter is_channel_call (snd (serve (post_send_whatsapp st req) w)) = [].
Proof.
  intros Hready Hvalid. apply validate_next in Hvalid.
  assert (Hrun : serve (post_send_whatsapp st req) w
    = (inr (mkResponse 503
            (Json [("success", JBool false);
                   ("error", JStr err_not_ready);
                   ("whatsappConnected", JBool false);
                   ("clientInitializing", JBool (clientInitializing st))])),
       [Log Warn "Message send failed: Client not ready"
          [("ip", JStr (req_ip req));
           ("clientInitializing", JBool (clientInitializing st))]])).
  { unfold serve, post_send_whatsapp. rewrite Hvalid.
    step_handler. rewrite Hready. reflexivity. }
  rewrite Hrun. split; reflexivity.
Qed.

Lemma send_not_ready_witness :
  fst (serve (post_send_whatsapp connecting_state
                (sample_request (lit "9876543210") (lit "hello")))
             (sample_world None (inr JNull) (inr (lit "id"))))
  = inr (mkResponse 503
           (Json [("success", JBool false);
                  ("error", JStr err_not_ready);
                  ("whatsappConnected", JBool false);
                  ("clientInitializing", JBool true)])).
Proof.
  refine (f_equal fst (proj1 (send_not_ready connecting_state
            (sample_request (lit "9876543210") (lit "hello"))
            (sample_world None (inr JNull) (inr (lit "id")))
            (lit "9876543210") (lit "hello") _ _))).
  - reflexivity.
  - vm_compute. reflexivity.
Defined.

(** C7. While the client is ready, a validated request for "9876543210" is
    sent to "919876543210@c.us": [getNumberId] is asked about that address;
    if its answer is truthy, [sendMessage] is called with that address and
    the message, and the 200 answer carries the raw number as [to], the
    address as [chatId], the id of the message and the elapsed time; if its
    answer is falsy, the answer is 404 and [sendMessage] is not called. *)
Theorem send_ready_ten_digits st req w (message : jsstring) (c : nat) :
  isClientReady st = true ->
  whatsappClient st = Some c ->
  snd (validateMessageInput req) = Next (lit "9876543210") message ->
  let chatId := lit "919876543210@c.us" in
  formatPhoneNumber (lit "9876543210") = chatId
  /\ (forall numberId messageId,
        getNumberId w chatId = inr numberId -> truthy numberId = true ->
        sendMessage w chatId message = inr messageId ->
        exists resp tr,
          serve (post_send_whatsapp st req) w = (inr resp, tr)
          /\ status resp = 200
          /\ json_field "success" resp = JBool true
          /\ json_field "data" resp
             = JObj [("to", JStr (lit "9876543210"));
                     ("chatId", JStr chatId);
                     ("messageId", JStr messageId);
                     ("responseTime", JNum (clock w 1 - clock w 0));
                     ("timestamp", JStr (toISOString w (clock w 2)))]
          /\ List.filter is_channel_call tr
             = [GetNumberId chatId; SendMessage chatId message])
  /\ (forall numberId,
        getNumberId w chatId = inr numberId -> truthy numberId = false ->
        exists resp tr,
          serve (post_send_whatsapp st req) w = (inr resp, tr)
          /\ status resp = 404
          /\ json_field "error" resp = JStr err_not_registered
          /\ json_field "number" resp = JStr (lit "9876543210")
          /\ List.filter is_channel_call tr = [GetNumberId chatId]).
Proof.
  intros Hready Hclient Hvalid chatId. apply validate_next in Hvalid.
  assert (Hfmt : formatPhoneNumber (lit "9876543210") = chatId) by reflexivity.
  split; [exact Hfmt|].
  clearbody chatId. revert Hvalid Hfmt.
  generalize (lit "9876543210"). intros number Hvalid Hfmt.
  split.
  - intros numberId messageId Hid Htruthy Hsent.
    unfold serve, post_send_whatsapp. rewrite Hvalid.
    step_handler. rewrite Hready, Hclient, Hfmt. simpl.
    rewrite Hid, Htruthy. simpl. rewrite Hsent.
    eexists. eexists. split; [reflexivity|]. repeat split.
  - intros numberId Hid Hfalsy.
    unfold serve, post_send_whatsapp. rewrite Hvalid.
    step_handler. rewrite Hready, Hclient, Hfmt. simpl.
    rewrite Hid, Hfalsy. simpl.
    eexists. eexists. split; [reflexivity|]. repeat split.
Qed.

Lemma send_ready_ten_digits_witness :
  (exists resp tr,
     serve (post_send_whatsapp ready_state
              (sample_request (lit "9876543210") (lit "hello")))
           (sample_world None (inr (JObj [])) (inr (lit "true_919876543210@c.us_3EB0")))
     = (inr resp, tr)
     /\ status resp = 200
     /\ json_field "success" resp = JBool true
     /\ json_field "data" resp
        = JObj [("to", JStr (lit "9876543210"));
                ("chatId", JStr (lit "919876543210@c.us"));
                ("messageId", JStr (lit "true_919876543210@c.us_3EB0"));
                ("responseTime", JNum 40);
                ("timestamp", JStr (lit "2024-01-01T12:00:00.000Z"))]
     /\ List.filter is_channel_call tr
        = [GetNumberId (lit "919876543210@c.us");
           SendMessage (lit "919876543210@c.us") (lit "hello")]).
Proof.
  refine (proj1 (proj2 (send_ready_ten_digits ready_state
            (sample_request (lit "9876543210") (lit "hello"))
            (sample_world None (inr (JObj [])) (inr (lit "true_919876543210@c.us_3EB0")))
            (lit "hello") 0 _ _ _))
          (JObj []) (lit "true_919876543210@c.us_3EB0") _ _ _);
    vm_compute; reflexivity.
Defined.



(** C10. A request whose [number] is a non-empty string without any decimal
    digit and whose [message] is valid passes the validator; the formatter
    turns the number into "@c.us", and with the client ready the handler
    goes on to ask [getNumberId] about that address. An empty-string
    [number] does not get that far: the validator answers it under the
    missing-fields rule. *)
Theorem digitless_number_reaches_channel st req w (number message : jsstring) (c : nat) :
  req_body req !! "number" = Some (JStr number) ->
  number <> [] ->
  Forall (fun d => isDigit d = false) number ->
  req_body req !! "message" = Some (JStr message) ->
  trim message <> [] ->
  length message <= 4096 ->
  isClientReady st = true ->
  whatsappClient st = Some c ->
  validateMessageInput req = ([], Next number message)
  /\ formatPhoneNumber number = lit "@c.us"
  /\ (exists e rest,
        is_channel_call e = false
        /\ snd (serve (post_send_whatsapp st req) w)
           = e :: GetNumberId (lit "@c.us") :: rest)
  /\ (forall req', req_body req' !! "number" = Some (JStr []) ->
        snd (validateMessageInput req') = Respond (rule_answer MissingFields)).
Proof.
  intros Hn Hne Hdigits Hm Htrim Hlen Hready Hclient.
  assert (Hfmt : formatPhoneNumber number = lit "@c.us").
  { unfold formatPhoneNumber. rewrite replace_nonDigit, filter_no_digit by exact Hdigits.
    reflexivity. }
  assert (Hvalid : validateMessageInput req = ([], Next number message)).
  { assert (E : first_violation (req_body req) = None).
    { apply first_violation_none. intros [] Hv; simpl in Hv.
      - rewrite !absent_or_falsy_iff in Hv. unfold prop in Hv.
        rewrite Hn, Hm in Hv. simpl in Hv.
        destruct number; [congruence|]. destruct message; [apply Htrim; reflexivity|].
        simpl in Hv. destruct Hv; discriminate.
      - unfold prop in Hv. rewrite Hn, Hm in Hv. simpl in Hv. tauto.
      - destruct Hv as (m & Hm' & Ht). congruence.
      - destruct Hv as (m & Hm' & Hl). assert (m = message) by congruence. subst. lia. }
    destruct (validate_no_violation req E) as (n & m & Hn' & Hm' & Hv).
    apply prop_string_iff in Hn', Hm'. congruence. }
  split; [exact Hvalid|]. split; [exact Hfmt|]. split.
  - revert Hfmt. generalize (lit "@c.us"). intros addr Hfmt.
    unfold serve, post_send_whatsapp. rewrite Hvalid.
    step_handler. rewrite Hready, Hclient, Hfmt. simpl.
    destruct (getNumberId w addr) as [err|numberId]; simpl.
    + eexists. eexists. split; [|reflexivity]. reflexivity.
    + destruct (truthy numberId); simpl.
      * destruct (sendMessage w addr message); simpl;
          eexists; eexists; (split; [|reflexivity]); reflexivity.
      * eexists. eexists. split; [|reflexivity]. reflexivity.
  - intros req' Hn'. apply validate_first_violation.
    apply first_violation_spec. split.
    + left. right. exists (JStr []). split; [exact Hn'|]. unfold falsy. tauto.
    + intros r' Hlt. simpl in Hlt. lia.
Qed.

Lemma digitless_number_reaches_channel_witness :
  validateMessageInput (sample_request (lit "call me") (lit "hello"))
  = ([], Next (lit "call me") (lit "hello"))
  /\ formatPhoneNumber (lit "call me") = lit "@c.us".
Proof.
  destruct (digitless_number_reaches_channel ready_state
              (sample_request (lit "call me") (lit "hello"))
              (sample_world None (inr JNull) (inr []))
              (lit "call me") (lit "hello") 0)
    as (Hvalid & Hfmt & _).
  - vm_compute. reflexivity.
  - discriminate.
  - repeat constructor.
  - vm_compute. reflexivity.
  - vm_compute. discriminate.
  - simpl. lia.
  - reflexivity.
  - reflexivity.
  - split; assumption.
Defined.

End Send.

(** * Further properties *)

(** ** More on formatPhoneNumber *)

Section Formatter.

Implicit Types (raw s d : jsstring).

Lemma filter_digits_all s :
  Forall (fun c => isDigit c = true) s -> List.filter isDigit s = s.
Proof.
  induction 1 as [|c s Hc _ IH]; simpl; [reflexivity|].
  rewrite Hc, IH. reflexivity.
Qed.

Lemma filter_digits_idem s :
  List.filter isDigit (List.filter isDigit s) = List.filter isDigit s.
Proof.
  apply filter_digits_all, List.Forall_forall. intros c Hc.
  apply List.filter_In in Hc. tauto.
Qed.

(** The address in terms of the digits of the input. *)
Lemma formatPhoneNumber_filter raw :
  formatPhoneNumber raw
  = (if length (List.filter isDigit raw) =? 10 then lit "91" else [])
    ++ List.filter isDigit raw ++ lit "@c.us".
Proof.
  unfold formatPhoneNumber. rewrite replace_nonDigit.
  destruct (length (List.filter isDigit raw) =? 10); [|reflexivity].
  rewrite <- List.app_assoc. reflexivity.
Qed.

(** The digits of the address. *)
Lemma formatPhoneNumber_its_digits raw :
  List.filter isDigit (formatPhoneNumber raw)
  = (if length (List.filter isDigit raw) =? 10 then lit "91" else [])
    ++ List.filter isDigit raw.
Proof.
  rewrite formatPhoneNumber_filter, !List.filter_app, filter_digits_idem.
  destruct (length (List.filter isDigit raw) =? 10); simpl;
    rewrite List.app_nil_r; reflexivity.
Qed.

Lemma formatPhoneNumber_digit_count raw :
  length (List.filter isDigit (formatPhoneNumber raw)) <> 10.
Proof.
  rewrite formatPhoneNumber_its_digits.
  destruct (Nat.eqb_spec (length (List.filter isDigit raw)) 10) as [E|E].
  - rewrite List.length_app, E. simpl. lia.
  - exact E.
Qed.

(** X1. Formatting an address again returns it unchanged: the suffix holds
    no digit, and the digit part never has exactly ten digits. *)
Theorem formatPhoneNumber_idempotent raw :
  formatPhoneNumber (formatPhoneNumber raw) = formatPhoneNumber raw.
Proof.
  rewrite (formatPhoneNumber_filter (formatPhoneNumber raw)).
  pose proof (formatPhoneNumber_digit_count raw) as Hne.
  apply Nat.eqb_neq in Hne. rewrite Hne. simpl.
  rewrite formatPhoneNumber_its_digits, formatPhoneNumber_filter.
  rewrite List.app_assoc. reflexivity.
Qed.

(** X2. The address depends on the digits of the input only: two inputs
    with the same digits in the same order, whatever else they contain, get
    the same address. *)
Theorem formatPhoneNumber_digits_only raw raw' :
  List.filter isDigit raw = List.filter isDigit raw' ->
  formatPhoneNumber raw = formatPhoneNumber raw'.
Proof.
  intros H. rewrite !formatPhoneNumber_filter, H. reflexivity.
Qed.

Lemma formatPhoneNumber_digits_only_witness :
  formatPhoneNumber (lit "+91 (98765) 43-210") = formatPhoneNumber (lit "919876543210").
Proof.
  apply (formatPhoneNumber_digits_only (lit "+91 (98765) 43-210") (lit "919876543210")).
  vm_compute. reflexivity.
Defined.

(** X3. A number with exactly ten digits and the same number written with
    91 in front get the same address, so the address does not tell which of
    the two was asked for. *)
Theorem formatPhoneNumber_prefix_collision raw :
  length (List.filter isDigit raw) = 10 ->
  formatPhoneNumber (lit "91" ++ raw) = formatPhoneNumber raw
  /\ lit "91" ++ raw <> raw.
Proof.
  intros H. split.
  - rewrite !formatPhoneNumber_filter, List.filter_app.
    change (List.filter isDigit (lit "91")) with (lit "91").
    rewrite List.length_app, H. simpl. reflexivity.
  - intros E. apply (f_equal (@length N)) in E.
    rewrite List.length_app in E. simpl in E. lia.
Qed.

Lemma formatPhoneNumber_prefix_collision_witness :
  formatPhoneNumber (lit "91" ++ lit "98765-43210") = formatPhoneNumber (lit "98765-43210").
Proof.
  apply (proj1 (formatPhoneNumber_prefix_collision (lit "98765-43210") eq_refl)).
Defined.

(** X4. Every address is a run of digits followed by "@c.us"; the run
    never has exactly ten digits, it keeps every digit of the input, and it
    is empty exactly when the input holds no digit. *)
Theorem formatPhoneNumber_shape raw :
  exists user,
    formatPhoneNumber raw = user ++ lit "@c.us"
    /\ Forall (fun c => isDigit c = true) user
    /\ length user <> 10
    /\ length (List.filter isDigit raw) <= length user
    /\ (user = [] <-> Forall (fun c => isDigit c = false) raw).
Proof.
  exists (List.filter isDigit (formatPhoneNumber raw)).
  assert (Hall : Forall (fun c => isDigit c = true)
                   (List.filter isDigit (formatPhoneNumber raw))).
  { apply List.Forall_forall. intros c Hc. apply List.filter_In in Hc. tauto. }
  split; [|split; [exact Hall|split; [apply formatPhoneNumber_digit_count|split]]].
  - rewrite formatPhoneNumber_its_digits, formatPhoneNumber_filter.
    rewrite List.app_assoc. reflexivity.
  - rewrite formatPhoneNumber_its_digits, List.length_app. lia.
  - rewrite formatPhoneNumber_its_digits. split.
    + intros H. apply List.app_eq_nil in H as [_ H].
      apply List.Forall_forall. intros c Hc.
      destruct (isDigit c) eqn:Ec; [|reflexivity].
      assert (Hin : List.In c (List.filter isDigit raw))
        by (apply List.filter_In; split; assumption).
      rewrite H in Hin. destruct Hin.
    + intros H. rewrite (filter_no_digit raw H). reflexivity.
Qed.

End Formatter.

(** ** More on the validator *)

Section ValidatorMore.

Implicit Types (b : gmap string jsval) (req : request) (n m : jsstring).

Lemma trim_not_nil_iff m :
  trim m <> [] <-> exists c, List.In c m /\ isWhiteSpace c = false.
Proof.
  rewrite trim_nil_iff. split.
  - intros H. induction m as [|c m IH]; simpl in H; [congruence|].
    destruct (isWhiteSpace c) eqn:Ec; simpl in H.
    + destruct (IH H) as (c' & Hin & Hc'). exists c'. split; [right; exact Hin | exact Hc'].
    + exists c. split; [left; reflexivity | exact Ec].
  - intros (c & Hin & Hc) H. rewrite forallb_forall in H.
    rewrite (H c Hin) in Hc. discriminate.
Qed.

(** X5. The validator calls [next()] exactly for the bodies in which
    [number] is a non-empty string and [message] is a string of at most 4096
    code units with at least one code unit that is not white space; the
    strings handed on are the ones of the body, untouched. *)
Theorem validateMessageInput_accepts req n m :
  snd (validateMessageInput req) = Next n m <->
  req_body req !! "number" = Some (JStr n)
  /\ n <> []
  /\ req_body req !! "message" = Some (JStr m)
  /\ (exists c, List.In c m /\ isWhiteSpace c = false)
  /\ length m <= 4096.
Proof.
  rewrite <- trim_not_nil_iff. split.
  - intros H.
    destruct (first_violation (req_body req)) as [r|] eqn:E.
    { rewrite (validate_first_violation req r E) in H. discriminate. }
    destruct (validate_no_violation req E) as (n' & m' & Hn & Hm & Hv).
    rewrite Hv in H. simpl in H. injection H as -> ->.
    apply prop_string_iff in Hn, Hm.
    pose proof (proj1 (first_violation_none _) E) as Hnone.
    split; [exact Hn|]. split; [|split; [exact Hm|split]].
    + intros ->. apply (Hnone MissingFields). left. right.
      exists (JStr []). split; [exact Hn | unfold falsy; tauto].
    + intros Ht. apply (Hnone EmptyMessage). exists m. split; assumption.
    + destruct (Nat.le_gt_cases (length m) 4096) as [Hl|Hl]; [exact Hl|].
      exfalso. apply (Hnone TooLong). exists m. split; assumption.
  - intros (Hn & Hne & Hm & Ht & Hl).
    assert (E : first_violation (req_body req) = None).
    { apply first_violation_none. intros [] Hv; simpl in Hv.
      - rewrite !absent_or_falsy_iff in Hv. unfold prop in Hv.
        rewrite Hn, Hm in Hv. simpl in Hv.
        destruct n; [congruence|]. destruct m; [apply Ht; reflexivity|].
        simpl in Hv. destruct Hv; discriminate.
      - unfold prop in Hv. rewrite Hn, Hm in Hv. simpl in Hv. tauto.
      - destruct Hv as (m' & Hm' & Ht'). congruence.
      - destruct Hv as (m' & Hm' & Hl'). assert (m' = m) by congruence. subst. lia. }
    destruct (validate_no_violation req E) as (n' & m' & Hn' & Hm' & Hv).
    apply prop_string_iff in Hn', Hm'. rewrite Hv. simpl. congruence.
Qed.

Lemma validateMessageInput_accepts_witness :
  snd (validateMessageInput (sample_request (lit "919876543210") (repeat 97%N 4096)))
  = Next (lit "919876543210") (repeat 97%N 4096).
Proof.
  apply (proj2 (validateMessageInput_accepts
                  (sample_request (lit "919876543210") (repeat 97%N 4096))
                  (lit "919876543210") (repeat 97%N 4096))).
  split; [vm_compute; reflexivity|]. split; [discriminate|].
  split; [vm_compute; reflexivity|]. split.
  - exists 97%N. split; [left; reflexivity | reflexivity].
  - rewrite List.repeat_length. lia.
Defined.



(** X7. Whatever the body, the validator logs exactly one warning, which
    carries the caller's address, when it rejects, and nothing when it
    accepts; a rejection always has status 400 and [success: false]. *)
Theorem validateMessageInput_logs_rejections req :
  match validateMessageInput req with
  | (logs, Respond r) =>
      (exists text meta,
         logs = [Log Warn text meta] /\ field "ip" meta = JStr (req_ip req))
      /\ status r = 400
      /\ json_field "success" r = JBool false
  | (logs, Next _ _) => logs = []
  end.
Proof.
  unfold validateMessageInput.
  destruct (negb (truthy (prop (req_body req) "number"))
            || negb (truthy (prop (req_body req) "message"))).
  { split; [|split; reflexivity]. eexists. eexists. split; reflexivity. }
  destruct (prop (req_body req) "number") as [| | | |sn| |];
    destruct (prop (req_body req) "message") as [| | | |sm| |];
    try (split; [|split; reflexivity]; eexists; eexists; split; reflexivity).
  destruct (length (trim sm) =? 0).
  { split; [|split; reflexivity]. eexists. eexists. split; reflexivity. }
  destruct (4096 <? length sm); [|reflexivity].
  split; [|split; reflexivity]. eexists. eexists. split; reflexivity.
Qed.

End ValidatorMore.

(** ** More on POST /send-whatsapp *)

Section SendMore.

Implicit Types (st : state) (w : world) (req : request) (n m ip : jsstring).

Ltac unfold_handler :=
  unfold serve, send_handler, bind, try_catch, ret, throw,
    emit, emit_all, date_now, iso_now, env_mode, await_getNumberId,
    await_sendMessage; simpl.

Lemma send_handler_path st ip n m w :
  exists resp tr code ok,
    serve (send_handler st ip n m) w = (inr resp, tr)
    /\ status resp = code
    /\ json_field "success" resp = JBool ok
    /\ handler_path st w n m code ok (channel_calls tr).
Proof.
  unfold_handler. unfold channel_calls.
  destruct (isClientReady st) eqn:Hready; simpl.
  2:{ do 4 eexists. split; [reflexivity|]. split; [reflexivity|].
      split; [reflexivity|]. simpl. apply path_not_ready. assumption. }
  destruct (whatsappClient st) as [c|] eqn:Hclient; simpl.
  2:{ do 4 eexists. split; [reflexivity|]. split; [reflexivity|].
      split; [reflexivity|]. simpl. apply path_no_client; assumption. }
  remember (formatPhoneNumber n) as chatId eqn:Hchat.
  destruct (getNumberId w chatId) as [e|numberId] eqn:Hid; simpl.
  { do 4 eexists. split; [reflexivity|]. split; [reflexivity|].
    split; [reflexivity|]. simpl. subst chatId.
    eapply path_check_throws; eauto. }
  destruct (truthy numberId) eqn:Htruthy; simpl.
  2:{ do 4 eexists. split; [reflexivity|]. split; [reflexivity|].
      split; [reflexivity|]. simpl. subst chatId.
      eapply path_unknown; eauto. }
  destruct (sendMessage w chatId m) as [e|messageId] eqn:Hsent; simpl.
  - do 4 eexists. split; [reflexivity|]. split; [reflexivity|].
    split; [reflexivity|]. simpl. subst chatId.
    eapply path_send_throws; eauto.
  - do 4 eexists. split; [reflexivity|]. split; [reflexivity|].
    split; [reflexivity|]. simpl. subst chatId.
    eapply path_sent; eauto.
Qed.

(** The route either stops at the validator or goes one way through the
    handler; it always answers. *)
Lemma route_outcome st req w :
  (exists resp logs,
     validateMessageInput req = (logs, Respond resp)
     /\ serve (post_send_whatsapp st req) w = (inr resp, logs)
     /\ channel_calls logs = []
     /\ status resp = 400
     /\ json_field "success" resp = JBool false)
  \/ (exists n m resp tr code ok,
        validateMessageInput req = ([], Next n m)
        /\ serve (post_send_whatsapp st req) w = (inr resp, tr)
        /\ status resp = code
        /\ json_field "success" resp = JBool ok
        /\ handler_path st w n m code ok (channel_calls tr)).
Proof.
  pose proof (validateMessageInput_logs_rejections req) as Hlog.
  destruct (validateMessageInput req) as [logs [resp|n m]] eqn:Hv.
  - left. destruct Hlog as ((text & meta & -> & _) & Hs & Hok).
    exists resp, [Log Warn text meta]. split; [reflexivity|].
    split; [|split; [reflexivity|split; assumption]].
    unfold serve, post_send_whatsapp. rewrite Hv. reflexivity.
  - right. subst logs.
    destruct (send_handler_path st (req_ip req) n m w)
      as (resp & tr & code & ok & Hrun & Hs & Hok & Hpath).
    exists n, m, resp, tr, code, ok. split; [reflexivity|].
    split; [|auto].
    unfold serve, post_send_whatsapp. rewrite Hv.
    unfold serve in Hrun. unfold bind, emit_all. simpl. exact Hrun.
Qed.

Lemma rejects_not_next req n m :
  validateMessageInput req = ([], Next n m) -> ~ rejects req.
Proof. intros H [resp Hr]. rewrite H in Hr. discriminate. Qed.

Lemma rejects_of_respond req logs resp :
  validateMessageInput req = (logs, Respond resp) -> rejects req.
Proof. intros H. exists resp. rewrite H. reflexivity. Qed.


(** X9. The calls the route makes on the channel are none, or one
    existence check, or one existence check followed by one dispatch, always
    for the address of the [number] of the body and with the [message] of
    the body unchanged; there is none when the validator rejects or the
    client is not ready, and a dispatch only after the existence check
    answered truthy. *)
Theorem send_route_channel_calls st req w :
  let calls := channel_calls (snd (serve (post_send_whatsapp st req) w)) in
  (rejects req -> calls = [])
  /\ (isClientReady st = false -> calls = [])
  /\ (forall n m, snd (validateMessageInput req) = Next n m ->
        calls = []
        \/ calls = [GetNumberId (formatPhoneNumber n)]
        \/ (calls = [GetNumberId (formatPhoneNumber n);
                     SendMessage (formatPhoneNumber n) m]
            /\ exists numberId,
                 getNumberId w (formatPhoneNumber n) = inr numberId
                 /\ truthy numberId = true)).
Proof.
  intros calls. subst calls.
  destruct (route_outcome st req w)
    as [(resp & logs & Hv & Hrun & Hcalls & _)
       |(n & m & resp & tr & code & ok & Hv & Hrun & _ & _ & Hpath)];
    rewrite Hrun; simpl.
  - split; [auto|]. split; [auto|]. intros n m Hn. rewrite Hv in Hn. discriminate.
  - split; [intros Hrej; destruct (rejects_not_next _ _ _ Hv Hrej)|].
    split.
    + intros Hready. inversion Hpath; subst; try congruence.
    + intros n' m' Hn. rewrite Hv in Hn. simpl in Hn. injection Hn as <- <-.
      inversion Hpath; subst; auto.
      * right. right. split; [reflexivity|]. eauto.
      * right. right. split; [reflexivity|]. eauto.
Qed.

Lemma send_route_channel_calls_witness :
  channel_calls (snd (serve (post_send_whatsapp connecting_state
                               (sample_request (lit "9876543210") (lit "hello")))
                            (sample_world None (inr (JObj [])) (inr (lit "id")))))
  = [].
Proof.
  apply (proj1 (proj2 (send_route_channel_calls connecting_state
           (sample_request (lit "9876543210") (lit "hello"))
           (sample_world None (inr (JObj [])) (inr (lit "id")))))).
  reflexivity.
Defined.

(** X10. In every answer of the route the [success] field is [true]
    exactly when the status is 200. *)
Theorem send_route_success_flag st req w :
  exists resp tr,
    serve (post_send_whatsapp st req) w = (inr resp, tr)
    /\ json_field "success" resp = JBool (status resp =? 200).
Proof.
  destruct (route_outcome st req w)
    as [(resp & logs & _ & Hrun & _ & Hs & Hok)
       |(n & m & resp & tr & code & ok & _ & Hrun & Hs & Hok & Hpath)].
  - exists resp, logs. rewrite Hs. auto.
  - exists resp, tr. split; [exact Hrun|]. rewrite Hs, Hok.
    inversion Hpath; reflexivity.
Qed.

End SendMore.

(** ** More on the connection flags *)

Section ConnectionMore.

Implicit Types (st : state) (ev : event) (evs : list event).

Lemma run_app evs1 evs2 st :
  run (evs1 ++ evs2) st
  = (fst (run evs2 (fst (run evs1 st))),
     snd (run evs1 st) ++ snd (run evs2 (fst (run evs1 st)))).
Proof.
  revert st. induction evs1 as [|ev evs1 IH]; intros st; simpl.
  - destruct (run evs2 st). reflexivity.
  - destruct (handle ev st) as [st1 eff1]. rewrite IH.
    destruct (run evs1 st1) as [st2 eff2]. simpl.
    rewrite List.app_assoc. reflexivity.
Qed.

Lemma run_cons ev evs st :
  run (ev :: evs) st
  = (fst (run evs (fst (handle ev st))),
     snd (handle ev st) ++ snd (run evs (fst (handle ev st)))).
Proof.
  simpl. destruct (handle ev st) as [st1 eff1]. simpl.
  destruct (run evs st1). reflexivity.
Qed.

(** Every handler keeps the current client the latest one. *)
Lemma handle_client_is_latest ev st :
  client_is_latest st -> client_is_latest (fst (handle ev st)).
Proof.
  intros (id & Hc & Hn). destruct ev; simpl; try (exists id; split; assumption).
  - destruct dataUrl; exists id; split; assumption.
  - destruct (timers st) as [|[d []] ts]; simpl; [exists id; split; assumption|].
    unfold initializeWhatsApp. simpl.
    destruct (clientInitializing st); simpl.
    + exists id. split; assumption.
    + exists (clientsCreated st). split; reflexivity.
Qed.

Lemma run_client_is_latest evs : forall st,
  client_is_latest st -> client_is_latest (fst (run evs st)).
Proof.
  induction evs as [|ev evs IH]; intros st H; [exact H|].
  rewrite run_cons. simpl. apply IH, handle_client_is_latest, H.
Qed.

Lemma connecting_client_is_latest : client_is_latest connecting_state.
Proof. exists 0. split; reflexivity. Qed.

(** X11. From start-up on, whatever the event loop delivers, there is a
    current client and it is the one created last; so a 500 of the send
    route always comes from a channel call that threw, never from a missing
    client. *)
Theorem client_never_missing evs req w :
  let st := fst (run evs connecting_state) in
  whatsappClient st = Some (clientsCreated st - 1)
  /\ 1 <= clientsCreated st
  /\ (forall resp tr,
        serve (post_send_whatsapp st req) w = (inr resp, tr) ->
        status resp = 500 ->
        exists n m e,
          snd (validateMessageInput req) = Next n m
          /\ (getNumberId w (formatPhoneNumber n) = inl e
              \/ sendMessage w (formatPhoneNumber n) m = inl e)).
Proof.
  intros st.
  destruct (run_client_is_latest evs _ connecting_client_is_latest)
    as (id & Hc & Hn). fold st in Hc, Hn.
  split; [rewrite Hc, Hn; f_equal; lia|]. split; [lia|].
  intros resp tr Hrun Hs.
  destruct (route_outcome st req w)
    as [(resp' & logs & _ & Hrun' & _ & Hs' & _)
       |(n & m & resp' & tr' & code & ok & Hv & Hrun' & Hs' & _ & Hpath)];
    rewrite Hrun in Hrun'; injection Hrun' as <- <-.
  - congruence.
  - exists n, m. rewrite Hv. simpl.
    inversion Hpath; subst; try congruence; eauto.
Qed.

Lemma client_never_missing_witness :
  exists n m e,
    snd (validateMessageInput (sample_request (lit "9876543210") (lit "hello")))
    = Next n m
    /\ (getNumberId (sample_world None (inl sample_error) (inr [])) (formatPhoneNumber n)
        = inl e
        \/ sendMessage (sample_world None (inl sample_error) (inr []))
             (formatPhoneNumber n) m = inl e).
Proof.
  refine (proj2 (proj2 (client_never_missing [Ready]
            (sample_request (lit "9876543210") (lit "hello"))
            (sample_world None (inl sample_error) (inr []))))
          _ _ _ _).
  - vm_compute. reflexivity.
  - reflexivity.
Defined.

(** One round: a disconnect, then the expiry of the oldest timer. *)
Lemma reconnect_round st reason :
  exists ts,
    length ts = length (timers st)
    /\ fst (handle Timeout (fst (handle (Disconnected reason) st)))
       = mkState (Some (clientsCreated st)) false true (qrCodeDataUrl st)
                 (S (clientsCreated st)) ts
    /\ List.filter starts_client
         (snd (handle (Disconnected reason) st)
          ++ snd (handle Timeout (fst (handle (Disconnected reason) st))))
       = [NewClient (clientsCreated st); ClientInitialize (clientsCreated st)].
Proof.
  simpl. destruct (timers st) as [|[d []] ts]; simpl.
  - exists []. repeat split.
  - exists (ts ++ [mkTimer 5000 Reconnect]). repeat split.
    rewrite List.length_app. simpl. lia.
Qed.

(** X12. Nothing bounds the reconnection: [n] rounds of a disconnect
    followed by the expiry of a timer create [n] further clients, one per
    round, and leave the guard set and the ready flag clear; the clients
    created before are not destroyed. *)
Theorem reconnect_unbounded (reason : jsstring) (n : nat) st :
  let st' := fst (run (reconnect_rounds reason n) st) in
  clientsCreated st' = clientsCreated st + n
  /\ length (List.filter starts_client (snd (run (reconnect_rounds reason n) st)))
     = 2 * n
  /\ length (timers st') = length (timers st)
  /\ (0 < n ->
      whatsappClient st' = Some (clientsCreated st + n - 1)
      /\ clientInitializing st' = true
      /\ isClientReady st' = false).
Proof.
  revert st. induction n as [|n IH]; intros st; simpl reconnect_rounds.
  - simpl. repeat split; try lia.
  - rewrite run_cons, run_cons. cbv zeta. cbn [fst snd].
    destruct (reconnect_round st reason) as (ts & Hlen & Hst & Heff).
    specialize (IH (fst (handle Timeout (fst (handle (Disconnected reason) st))))).
    cbv zeta in IH. destruct IH as (IHc & IHe & IHt & IHn).
    rewrite List.app_assoc, List.filter_app, List.length_app, Heff, IHe.
    rewrite Hst in IHc, IHt, IHn. cbn [clientsCreated timers] in IHc, IHt, IHn.
    rewrite Hst.
    split; [lia|]. split; [simpl; lia|]. split; [lia|].
    intros _. destruct n as [|n].
    + simpl. repeat split. f_equal. lia.
    + destruct IHn as (Hw & Hg & Hr); [lia|].
      rewrite Hw, Hg, Hr. repeat split. f_equal. lia.
Qed.

Lemma reconnect_unbounded_witness :
  whatsappClient (fst (run (reconnect_rounds (lit "NAVIGATION") 3) ready_state))
  = Some 3.
Proof.
  apply (proj1 (proj2 (proj2 (proj2
           (reconnect_unbounded (lit "NAVIGATION") 3 ready_state))) ltac:(lia))).
Defined.

(** After one or more disconnects in a row the guard is clear and a timer
    is pending; no client has been started. *)
Lemma run_disconnects reason k : forall st,
  let st' := fst (run (repeat (Disconnected reason) (S k)) st) in
  clientInitializing st' = false
  /\ clientsCreated st' = clientsCreated st
  /\ timers st' = timers st ++ repeat (mkTimer 5000 Reconnect) (S k)
  /\ List.filter starts_client (snd (run (repeat (Disconnected reason) (S k)) st)) = [].
Proof.
  induction k as [|k IH]; intros st.
  - simpl. repeat split.
  - change (repeat (Disconnected reason) (S (S k)))
      with (Disconnected reason :: repeat (Disconnected reason) (S k)).
    rewrite run_cons. cbv zeta. cbn [fst snd].
    specialize (IH (fst (handle (Disconnected reason) st))). cbv zeta in IH.
    destruct IH as (Hg & Hc & Ht & Hf).
    rewrite Hg, Hc, Ht, List.filter_app, Hf. simpl.
    rewrite <- List.app_assoc. repeat split.
Qed.

(** The expiry of a timer when the guard is clear and a timer is pending
    starts a client. *)
Lemma timeout_starts_client st :
  clientInitializing st = false -> timers st <> [] ->
  clientInitializing (fst (handle Timeout st)) = true
  /\ clientsCreated (fst (handle Timeout st)) = S (clientsCreated st)
  /\ List.filter starts_client (snd (handle Timeout st))
     = [NewClient (clientsCreated st); ClientInitialize (clientsCreated st)].
Proof.
  intros Hg Ht. simpl. destruct (timers st) as [|[d []] ts]; [congruence|].
  simpl. unfold initializeWhatsApp. simpl. rewrite Hg. simpl. repeat split.
Qed.

(** X13. Disconnects that pile up collapse into one reconnection: after
    [k >= 1] disconnects in a row, the expiry of [k] timers creates one
    client only; the other expiries find the guard set and do nothing. *)
Theorem repeated_disconnects_collapse (reason : jsstring) (k : nat) st :
  0 < k ->
  let evs := repeat (Disconnected reason) k ++ repeat Timeout k in
  clientsCreated (fst (run evs st)) = S (clientsCreated st)
  /\ List.filter starts_client (snd (run evs st))
     = [NewClient (clientsCreated st); ClientInitialize (clientsCreated st)]
  /\ clientInitializing (fst (run evs st)) = true.
Proof.
  intros Hk evs. subst evs. destruct k as [|k]; [lia|].
  rewrite run_app. cbn [fst snd].
  destruct (run_disconnects reason k st) as (Hg & Hc & Ht & Hf).
  set (st1 := fst (run (repeat (Disconnected reason) (S k)) st)) in *.
  change (repeat Timeout (S k)) with (Timeout :: repeat Timeout k).
  rewrite run_cons. cbn [fst snd].
  assert (Hne : timers st1 <> []).
  { rewrite Ht. intros E. apply (f_equal (@length timer)) in E.
    rewrite List.length_app in E. simpl in E. lia. }
  destruct (timeout_starts_client st1 Hg Hne) as (Hg2 & Hc2 & Hf2).
  set (st2 := fst (handle Timeout st1)) in *.
  assert (Hall : Forall (fun ev => clears_guard ev = false) (repeat Timeout k)).
  { apply List.Forall_forall. intros ev Hin. apply List.repeat_spec in Hin.
    subst ev. reflexivity. }
  destruct (run_guard_kept (repeat Timeout k) st2 Hg2 Hall) as (Hg3 & Hc3 & _ & Hf3).
  rewrite Hc3, Hc2, Hg3, !List.filter_app, Hf, Hf2, Hf3, Hc. repeat split.
Qed.

Lemma repeated_disconnects_collapse_witness :
  clientsCreated (fst (run (repeat (Disconnected (lit "LOGOUT")) 3 ++ repeat Timeout 3)
                           ready_state))
  = 2.
Proof.
  apply (proj1 (repeated_disconnects_collapse (lit "LOGOUT") 3 ready_state ltac:(lia))).
Defined.

Lemma run_not_ready evs : forall st,
  isClientReady st = false ->
  Forall (fun ev => is_ready_event ev = false) evs ->
  isClientReady (fst (run evs st)) = false.
Proof.
  induction evs as [|ev evs IH]; intros st Hr Hall; [exact Hr|].
  inversion Hall as [|? ? Hev Hrest]; subst.
  rewrite run_cons. cbn [fst]. apply IH; [|exact Hrest].
  destruct ev; try discriminate; simpl; try assumption; try reflexivity.
  - destruct dataUrl; assumption.
  - destruct (timers st) as [|[d []] ts]; simpl; [assumption|].
    unfold initializeWhatsApp. simpl. destruct (clientInitializing st); assumption.
Qed.

(** X14. After a disconnect or an authentication failure, and until the
    next [ready] event, every request that passes the validator is answered
    503 without any call on the channel, whatever else happens in between
    (a new client being started by the reconnect timer included). *)
Theorem no_send_until_ready ev evs st req w :
  drops_ready ev = true ->
  Forall (fun ev' => is_ready_event ev' = false) evs ->
  ~ rejects req ->
  exists resp tr,
    serve (post_send_whatsapp (fst (run (ev :: evs) st)) req) w = (inr resp, tr)
    /\ status resp = 503
    /\ channel_calls tr = [].
Proof.
  intros Hev Hall Hacc.
  assert (Hr : isClientReady (fst (run (ev :: evs) st)) = false).
  { rewrite run_cons. cbn [fst]. apply run_not_ready; [|exact Hall].
    destruct ev; try discriminate; reflexivity. }
  destruct (route_outcome (fst (run (ev :: evs) st)) req w)
    as [(resp & logs & Hv & _)
       |(n & m & resp & tr & code & ok & _ & Hrun & Hs & _ & Hpath)].
  - destruct Hacc. exact (rejects_of_respond _ _ _ Hv).
  - exists resp, tr. split; [exact Hrun|].
    inversion Hpath; subst; try congruence. auto.
Qed.

Lemma no_send_until_ready_witness :
  exists resp tr,
    serve (post_send_whatsapp
             (fst (run [Disconnected (lit "LOGOUT"); Timeout; Qr (lit "2@abc") (inr sample_url)]
                       ready_state))
             (sample_request (lit "9876543210") (lit "hello")))
          (sample_world None (inr (JObj [])) (inr (lit "id")))
    = (inr resp, tr)
    /\ status resp = 503
    /\ channel_calls tr = [].
Proof.
  apply (no_send_until_ready (Disconnected (lit "LOGOUT"))
           [Timeout; Qr (lit "2@abc") (inr sample_url)] ready_state
           (sample_request (lit "9876543210") (lit "hello"))
           (sample_world None (inr (JObj [])) (inr (lit "id")))).
  - reflexivity.
  - repeat constructor.
  - intros [resp H]. vm_compute in H. discriminate.
Defined.

(** X15. Only [auth_failure] and [disconnected] clear the ready flag: it
    survives every other event, among them a client error, a failed
    initialization and the start of a new client by a reconnect timer. *)
Theorem ready_survives evs : forall st,
  isClientReady st = true ->
  Forall (fun ev => drops_ready ev = false) evs ->
  isClientReady (fst (run evs st)) = true.
Proof.
  induction evs as [|ev evs IH]; intros st Hr Hall; [exact Hr|].
  inversion Hall as [|? ? Hev Hrest]; subst.
  rewrite run_cons. cbn [fst]. apply IH; [|exact Hrest].
  destruct ev; try discriminate; simpl; try assumption; try reflexivity.
  - destruct dataUrl; assumption.
  - destruct (timers st) as [|[d []] ts]; simpl; [assumption|].
    unfold initializeWhatsApp. simpl. destruct (clientInitializing st); assumption.
Qed.

Lemma ready_survives_witness :
  isClientReady
    (fst (run [ClientError sample_error; Timeout; InitializeRejected sample_error]
              (set_timers [mkTimer 5000 Reconnect] ready_state)))
  = true.
Proof.
  apply (ready_survives [ClientError sample_error; Timeout; InitializeRejected sample_error]
           (set_timers [mkTimer 5000 Reconnect] ready_state)).
  - reflexivity.
  - repeat constructor.
Defined.

(** X16. GET /qr serves the QR code that was rendered last: a later QR
    code replaces it, a failed rendering and every other event leave it;
    the answer is 404 only as long as none has been rendered. *)
Theorem qr_serves_last_rendered evs : forall st,
  qrCodeDataUrl (fst (run evs st)) = last_qr evs (qrCodeDataUrl st)
  /\ get_qr (fst (run evs st))
     = match last_qr evs (qrCodeDataUrl st) with
       | Some (c :: url) => mkResponse 200 (Html (qr_markup (c :: url)))
       | _ => mkResponse 404 (Json [("success", JBool false);
                                    ("error", JStr qr_unavailable)])
       end.
Proof.
  assert (H : forall st, qrCodeDataUrl (fst (run evs st)) = last_qr evs (qrCodeDataUrl st)).
  { induction evs as [|ev evs IH]; intros st; [reflexivity|].
    rewrite run_cons. cbn [fst]. rewrite IH.
    destruct ev; simpl; try reflexivity.
    - destruct dataUrl; reflexivity.
    - destruct (timers st) as [|[d []] ts]; simpl; [reflexivity|].
      unfold initializeWhatsApp. simpl. destruct (clientInitializing st); reflexivity. }
  intros st. split; [apply H|].
  unfold get_qr. rewrite H.
  destruct (last_qr evs (qrCodeDataUrl st)) as [[|c url]|]; reflexivity.
Qed.

End ConnectionMore.

(** ** The probes, the shutdown hook and the test client *)

Section Surroundings.

Implicit Types (st : state) (w : world) (req : request).

(** X17. The three probes and the send route read the same flag: GET /
    says "Connected", GET /status says [whatsappConnected: true] and GET
    /health says [whatsapp: "ok"] exactly when the client is ready, and a
    request that passes the validator is answered 503 exactly when it is
    not. GET / says "Connected" even while a new client is being
    initialized; it says "Connecting" only when the client is not ready. *)
Theorem probes_agree st (ip : jsstring) (env : option jsstring)
  (uptime memoryUsage : jsval) (timestamp : jsstring) (heapUsed : Z) req w :
  let root := snd (get_root st ip env uptime timestamp) in
  let stat := snd (get_status st ip uptime memoryUsage timestamp) in
  status root = 200 /\ status stat = 200
  /\ json_field "whatsappConnected" stat = JBool (isClientReady st)
  /\ json_field "clientInitializing" stat = JBool (clientInitializing st)
  /\ (json_field "status" root = JStr (lit "Connected") <-> isClientReady st = true)
  /\ (json_field "status" root = JStr (lit "Connecting") <->
      isClientReady st = false /\ clientInitializing st = true)
  /\ (json_field "status" root = JStr (lit "Disconnected") <->
      isClientReady st = false /\ clientInitializing st = false)
  /\ (whatsapp (health_checks st heapUsed) = lit "ok" <-> isClientReady st = true)
  /\ (~ rejects req ->
      exists resp tr,
        serve (post_send_whatsapp st req) w = (inr resp, tr)
        /\ (status resp = 503 <-> json_field "whatsappConnected" stat = JBool false)).
Proof.
  intros root stat. subst root stat.
  split; [reflexivity|]. split; [reflexivity|].
  split; [reflexivity|]. split; [reflexivity|].
  unfold json_field. simpl. unfold connection_status.
  split; [|split; [|split; [|split]]].
  - destruct (isClientReady st), (clientInitializing st); simpl;
      split; try reflexivity; try discriminate; intros H; vm_compute in H; discriminate.
  - destruct (isClientReady st), (clientInitializing st); simpl;
      split; try tauto; try (intros [? ?]; discriminate);
      intros H; vm_compute in H; discriminate.
  - destruct (isClientReady st), (clientInitializing st); simpl;
      split; try tauto; try (intros [? ?]; discriminate);
      intros H; vm_compute in H; discriminate.
  - destruct (isClientReady st); simpl; split; try reflexivity; try discriminate.
  - intros Hacc.
    destruct (route_outcome st req w)
      as [(resp & logs & Hv & _)
         |(n & m & resp & tr & code & ok & _ & Hrun & Hs & _ & Hpath)].
    + destruct Hacc. exact (rejects_of_respond _ _ _ Hv).
    + exists resp, tr. split; [exact Hrun|]. rewrite Hs.
      inversion Hpath; subst;
        match goal with H : isClientReady st = _ |- _ => rewrite H end;
        split; try reflexivity; try discriminate.
Qed.

Lemma probes_agree_witness :
  exists resp tr,
    serve (post_send_whatsapp connecting_state
             (sample_request (lit "9876543210") (lit "hello")))
          (sample_world None (inr (JObj [])) (inr (lit "id")))
    = (inr resp, tr)
    /\ (status resp = 503 <->
        json_field "whatsappConnected"
          (snd (get_status connecting_state sample_ip (JNum 12) (JObj [])
                  (lit "2024-01-01T12:00:00.000Z")))
        = JBool false).
Proof.
  refine (proj2 (proj2 (proj2 (proj2 (proj2 (proj2 (proj2 (proj2
           (probes_agree connecting_state sample_ip None (JNum 12) (JObj [])
              (lit "2024-01-01T12:00:00.000Z") 0
              (sample_request (lit "9876543210") (lit "hello"))
              (sample_world None (inr (JObj [])) (inr (lit "id"))))))))))) _).
  intros [resp H]. vm_compute in H. discriminate.
Defined.

(** X18. However many clients the reconnections have created since
    start-up, the shutdown hook destroys one, the current one, and then
    exits with code 0, also when destroying it fails; the clients created
    before it are left alone. Before start-up it destroys nothing. *)
Theorem shutdown_destroys_current_only (evs : list event) (signal : string)
  (destroy : nat -> option js_error) :
  let st := fst (run evs connecting_state) in
  (exists before,
     gracefulShutdown signal st destroy = before ++ [Exit 0]
     /\ List.filter is_destroy before = [Destroy (clientsCreated st - 1)]
     /\ Forall (fun e => forall code, e <> Exit code) before)
  /\ List.filter is_destroy (gracefulShutdown signal initial_state destroy) = [].
Proof.
  intros st. split; [|reflexivity].
  destruct (run_client_is_latest evs _ connecting_client_is_latest)
    as (id & Hc & Hn). fold st in Hc, Hn.
  unfold gracefulShutdown. rewrite Hc, Hn.
  replace (S id - 1) with id by lia.
  destruct (destroy id) as [e|]; simpl.
  - eexists [_; _; _]. split; [reflexivity|]. split; [reflexivity|].
    repeat constructor; discriminate.
  - eexists [_; _; _]. split; [reflexivity|]. split; [reflexivity|].
    repeat constructor; discriminate.
Qed.

(** X19. The test client against this server: its readiness check returns
    the ready flag; a test send reports success exactly when the route
    answers 200; and a test send whose message is [undefined] (TEST_MESSAGE
    not set) or the empty string is turned down by the validator under its
    missing-fields rule, whatever the state of the server. *)
Theorem test_client_against_server st w (ip : jsstring) (uptime memoryUsage : jsval)
  (timestamp : jsstring) (phoneNumber message : option jsstring) :
  checkServerStatus (Some (snd (get_status st ip uptime memoryUsage timestamp)))
  = isClientReady st
  /\ (exists resp tr,
        serve (post_send_whatsapp st (mkRequest (test_body phoneNumber message) ip)) w
        = (inr resp, tr)
        /\ sendTestMessage (fetch_send st w) ip phoneNumber message
           = (status resp =? 200))
  /\ (message = None \/ message = Some [] ->
      snd (validateMessageInput (mkRequest (test_body phoneNumber message) ip))
      = Respond (rule_answer MissingFields)
      /\ sendTestMessage (fetch_send st w) ip phoneNumber message = false).
Proof.
  split; [unfold checkServerStatus; simpl; destruct (isClientReady st); reflexivity|].
  assert (Hsend : forall req,
            exists resp tr,
              serve (post_send_whatsapp st req) w = (inr resp, tr)
              /\ match fetch_send st w req with
                 | Some r =>
                     match body r with
                     | Json data => response_ok r && truthy (field "success" data)
                     | Html _ => false
                     end
                 | None => false
                 end = (status resp =? 200)).
  { intros req. unfold fetch_send.
    destruct (route_outcome st req w)
      as [(resp & logs & _ & Hrun & _ & Hs & Hok)
         |(n & m & resp & tr & code & ok & _ & Hrun & Hs & Hok & Hpath)];
      exists resp; eexists; (split; [exact Hrun|]); rewrite Hrun; simpl;
      unfold json_field in Hok; unfold response_ok; rewrite Hs;
      destruct (body resp) as [data|markup]; try discriminate; rewrite Hok.
    - reflexivity.
    - inversion Hpath; reflexivity. }
  split; [apply Hsend|].
  intros Hmsg.
  assert (Hv : snd (validateMessageInput (mkRequest (test_body phoneNumber message) ip))
               = Respond (rule_answer MissingFields)).
  { apply validate_first_violation, first_violation_spec. split.
    - right. simpl. destruct Hmsg as [-> | ->]; unfold test_body.
      + left. destruct phoneNumber; [rewrite lookup_insert_ne by discriminate|];
          apply lookup_empty.
      + right. exists (JStr []). split; [apply lookup_insert_eq|].
        unfold falsy. tauto.
    - intros r' Hlt. simpl in Hlt. lia. }
  split; [exact Hv|].
  unfold sendTestMessage.
  destruct (Hsend (mkRequest (test_body phoneNumber message) ip))
    as (resp & tr & Hrun & ->).
  destruct (route_outcome st (mkRequest (test_body phoneNumber message) ip) w)
    as [(resp' & logs & _ & Hrun' & _ & Hs & _)
       |(n & m & resp' & tr' & code & ok & Hv' & _)].
  - rewrite Hrun in Hrun'. injection Hrun' as <- <-. rewrite Hs. reflexivity.
  - rewrite Hv' in Hv. discriminate.
Qed.

Lemma test_client_against_server_witness :
  sendTestMessage (fetch_send ready_state (sample_world None (inr (JObj [])) (inr (lit "id"))))
    sample_ip (Some (lit "919876543210")) None
  = false.
Proof.
  apply (proj2 (proj2 (proj2
           (test_client_against_server ready_state
              (sample_world None (inr (JObj [])) (inr (lit "id")))
              sample_ip (JNum 12) (JObj []) (lit "2024-01-01T12:00:00.000Z")
              (Some (lit "919876543210")) None))
         (or_introl eq_refl))).
Defined.

End Surroundings.

(** ** Which answer the validator gives *)

Section ValidatorAnswers.

Implicit Types (b : gmap string jsval) (req : request) (n m : jsstring).

Lemma answer_iff_first_violation req (r : rule) :
  snd (validateMessageInput req) = Respond (rule_answer r)
  <-> first_violation (req_body req) = Some r.
Proof.
  split.
  - intros H. destruct (first_violation (req_body req)) as [r0|] eqn:E.
    + rewrite (validate_first_violation req r0 E) in H.
      injection H as H. apply rule_answer_inj in H. congruence.
    + destruct (validate_no_violation req E) as (n & m & _ & _ & Hv).
      rewrite Hv in H. discriminate.
  - apply validate_first_violation.
Qed.

(** Both fields are non-empty strings exactly when the first two rules
    hold. *)
Lemma first_two_rules_iff b :
  (~ violates MissingFields b /\ ~ violates NotStrings b)
  <-> exists n m,
        b !! "number" = Some (JStr n) /\ n <> []
        /\ b !! "message" = Some (JStr m) /\ m <> [].
Proof.
  rewrite <- !violatesb_false. simpl.
  rewrite !orb_false_iff, !negb_false_iff. split.
  - intros ((Hn & Hm) & (Hsn & Hsm)).
    destruct (prop b "number") as [| | | |n| |] eqn:En; try discriminate.
    destruct (prop b "message") as [| | | |m| |] eqn:Em; try discriminate.
    apply prop_string_iff in En, Em. exists n, m.
    repeat split; try assumption; intros ->; discriminate.
  - intros (n & m & Hn & Hne & Hm & Hme).
    apply prop_string_iff in Hn, Hm. rewrite Hn, Hm. simpl.
    destruct n; [congruence|]. destruct m; [congruence|]. auto.
Qed.

(** X20. The answer "Message cannot be empty" is given exactly to a
    non-empty [number] with a [message] that is not empty and holds white
    space only (the empty string gets the missing-fields answer instead);
    the answer "Message too long" exactly to a non-empty [number] with a
    [message] of more than 4096 code units that are not all white space (a
    longer message of white space only gets "Message cannot be empty"). *)
Theorem validateMessageInput_empty_and_long req :
  (snd (validateMessageInput req) = Respond (rule_answer EmptyMessage) <->
   exists n m,
     req_body req !! "number" = Some (JStr n) /\ n <> []
     /\ req_body req !! "message" = Some (JStr m) /\ m <> []
     /\ forallb isWhiteSpace m = true)
  /\ (snd (validateMessageInput req) = Respond (rule_answer TooLong) <->
      exists n m,
        req_body req !! "number" = Some (JStr n) /\ n <> []
        /\ req_body req !! "message" = Some (JStr m)
        /\ 4096 < length m
        /\ exists c, List.In c m /\ isWhiteSpace c = false).
Proof.
  rewrite !answer_iff_first_violation, !first_violation_spec. split; split.
  - intros ((m & Hm & Ht) & Hearlier).
    destruct (proj1 (first_two_rules_iff (req_body req))) as (n & m' & Hn & Hne & Hm' & Hme).
    { split; apply Hearlier; simpl; lia. }
    assert (m' = m) by congruence. subst m'.
    exists n, m. repeat split; try assumption. apply trim_nil_iff, Ht.
  - intros (n & m & Hn & Hne & Hm & Hme & Hws). split.
    + exists m. split; [exact Hm | apply trim_nil_iff, Hws].
    + assert (H2 : ~ violates MissingFields (req_body req)
                   /\ ~ violates NotStrings (req_body req))
        by (apply first_two_rules_iff; eauto 10).
      intros [] Hlt; simpl in Hlt; try lia; tauto.
  - intros ((m & Hm & Hl) & Hearlier).
    destruct (proj1 (first_two_rules_iff (req_body req))) as (n & m' & Hn & Hne & Hm' & Hme).
    { split; apply Hearlier; simpl; lia. }
    assert (m' = m) by congruence. subst m'.
    exists n, m. repeat split; try assumption.
    apply trim_not_nil_iff. intros Ht.
    apply (Hearlier EmptyMessage); [simpl; lia|]. exists m. auto.
  - intros (n & m & Hn & Hne & Hm & Hl & Hc). split.
    + exists m. auto.
    + assert (Hme : m <> []) by (intros ->; simpl in Hl; lia).
      assert (H2 : ~ violates MissingFields (req_body req)
                   /\ ~ violates NotStrings (req_body req))
        by (apply first_two_rules_iff; eauto 10).
      intros [] Hlt; simpl in Hlt; try lia; try tauto.
      intros (m' & Hm' & Ht). assert (m' = m) by congruence. subst m'.
      apply trim_not_nil_iff in Hc. contradiction.
Qed.

End ValidatorAnswers.

(** ** Who starts a client *)

Section Retry.

Implicit Types (st : state) (ev : event) (evs : list event).

Lemma handle_no_timer_no_client ev st :
  timers st = [] -> is_disconnect ev = false ->
  timers (fst (handle ev st)) = []
  /\ clientsCreated (fst (handle ev st)) = clientsCreated st
  /\ whatsappClient (fst (handle ev st)) = whatsappClient st
  /\ List.filter starts_client (snd (handle ev st)) = [].
Proof.
  intros Ht Hev. destruct ev; try discriminate; simpl; auto.
  - destruct dataUrl; simpl; auto.
  - destruct fromMe; auto.
  - rewrite Ht. auto.
Qed.

(** X21. Only a disconnect leads to a new client: with no timer pending
    and as long as no [disconnected] event arrives, no client is created,
    whatever else happens. So after an authentication failure, a client
    error or a failed initialization the server does not try again by
    itself. *)
Theorem no_retry_without_disconnect evs : forall st,
  timers st = [] ->
  Forall (fun ev => is_disconnect ev = false) evs ->
  clientsCreated (fst (run evs st)) = clientsCreated st
  /\ whatsappClient (fst (run evs st)) = whatsappClient st
  /\ timers (fst (run evs st)) = []
  /\ List.filter starts_client (snd (run evs st)) = [].
Proof.
  induction evs as [|ev evs IH]; intros st Ht Hall; [simpl; auto|].
  inversion Hall as [|? ? Hev Hrest]; subst.
  destruct (handle_no_timer_no_client ev st Ht Hev) as (Ht1 & Hc1 & Hw1 & Hf1).
  rewrite run_cons. cbn [fst snd].
  destruct (IH _ Ht1 Hrest) as (Hc2 & Hw2 & Ht2 & Hf2).
  rewrite Hc2, Hw2, Ht2, List.filter_app, Hf1, Hf2. auto.
Qed.

Lemma no_retry_without_disconnect_witness :
  clientsCreated
    (fst (run [InitializeRejected sample_error; Timeout; AuthFailure (lit "failed");
               ClientError sample_error; Timeout]
              connecting_state))
  = 1.
Proof.
  apply (proj1 (no_retry_without_disconnect
                  [InitializeRejected sample_error; Timeout; AuthFailure (lit "failed");
                   ClientError sample_error; Timeout]
                  connecting_state eq_refl ltac:(repeat constructor))).
Defined.

End Retry.
